(** * bluesky_queueserver_api.comm_threads: request dispatch, retry and teardown

    A shallow embedding of [comm_threads.py] (the thread-based ZMQ and HTTP
    clients) together with the parts of [comm_base.py] it calls.  Python
    objects become records, exceptions become an [outcome] sum, and the
    effects on the client object and on the outside world (transport calls,
    console output, monitor and handle shutdown) are threaded explicitly
    through a state-and-exception monad. *)

From Stdlib Require Import ZArith QArith String Ascii List DecimalString Lia.
From stdpp Require Import base gmap strings list.

#[local] Set Warnings "-register-all".
#[local] Open Scope Z_scope.
#[local] Open Scope string_scope.

(** ** Python payloads *)

(** Scalars that a decoded payload can hold.  Floating-point numbers are left
    out; text counts as a scalar, not as a sequence. *)
Inductive scalar : Type :=
| SBool (b : bool)
| SInt (z : Z)
| SStr (s : string).

(** Decoded payloads: [None], a scalar, a non-mapping sequence or a mapping. *)
Inductive value : Type :=
| VNone
| VScalar (x : scalar)
| VList (l : list value)
| VDict (d : gmap string value).

Definition VTrue : value := VScalar (SBool true).
Definition VFalse : value := VScalar (SBool false).
Definition VText (s : string) : value := VScalar (SStr s).

(** Python truthiness ([if x:], [x or y]). *)
Definition truthy (v : value) : bool :=
  match v with
  | VNone => false
  | VScalar (SBool b) => b
  | VScalar (SInt z) => negb (Z.eqb z 0)
  | VScalar (SStr s) => negb (String.eqb s "")
  | VList l => match l with [] => false | _ => true end
  | VDict d => negb (bool_decide (d = ∅))
  end.

(** [x == False] for a payload [x]: [False] itself and the integer [0]. *)
Definition py_eq_False (v : value) : bool :=
  match v with
  | VScalar (SBool b) => negb b
  | VScalar (SInt z) => Z.eqb z 0
  | _ => false
  end.

(** [x == True]: [True] itself and the integer [1]. *)
Definition py_eq_True (v : value) : bool :=
  match v with
  | VScalar (SBool b) => b
  | VScalar (SInt z) => Z.eqb z 1
  | _ => false
  end.

(** [needle in s] for text. *)
Fixpoint contains (needle s : string) : bool :=
  String.prefix needle s ||
  match s with
  | EmptyString => false
  | String _ s' => contains needle s'
  end.

Definition str_of_Z (z : Z) : string := NilZero.string_of_int (Z.to_int z).

(** *** [repr] of scalars *)

Definition hex_digit (n : N) : ascii :=
  ascii_of_N (if N.ltb n 10 then 48 + n else 87 + n)%N.

Definition has_char (c : ascii) (s : string) : bool :=
  existsb (Ascii.eqb c) (list_ascii_of_string s).

(** The quote [repr] surrounds a text with: a double quote only when the text
    holds a single quote and no double quote. *)
Definition dquote : ascii := ascii_of_N 34.

Definition repr_quote (s : string) : ascii :=
  if has_char "'"%char s && negb (has_char dquote s) then dquote else "'"%char.

Definition repr_char (q c : ascii) : string :=
  let n := N_of_ascii c in
  if Ascii.eqb c q || Ascii.eqb c "\"%char then String "\"%char (String c "")
  else if N.eqb n 9 then "\t"
  else if N.eqb n 10 then "\n"
  else if N.eqb n 13 then "\r"
  else if N.ltb n 32 || N.eqb n 127
       then String "\"%char (String "x"%char
              (String (hex_digit (n / 16)) (String (hex_digit (n mod 16)) "")))
  else String c "".

Definition repr_str (s : string) : string :=
  let q := repr_quote s in
  String q (String.concat "" (map (repr_char q) (list_ascii_of_string s)) ++ String q "").

Definition repr_scalar (x : scalar) : string :=
  match x with
  | SBool true => "True"
  | SBool false => "False"
  | SInt z => str_of_Z z
  | SStr s => repr_str s
  end.

(** ** Requests *)

(** [method] is a bare name looked up in the REST table or an explicit
    [(verb, endpoint)] pair. *)
Inductive method : Type :=
| MName (name : string)
| MPair (verb endpoint : string).

(** The dictionary [{"method": method, "params": params}] handed to the
    validator and kept by the errors it raises. *)
Record request : Type := mk_request {
  rq_method : method;
  rq_params : value
}.

(** ** Errors *)

(** The error taxonomy of [comm_base], followed by the interpreter's own
    [UnboundLocalError] and by what the ZMQ and [httpx] clients raise. *)
Inductive exn : Type :=
| RequestParameterError (msg : string)
| RequestTimeoutError (msg : string) (rq : request)
| RequestFailedError (msg : string) (rq : request) (response : value)
| HTTPRequestError (msg : string)
| HTTPClientError (msg : string)
| UnboundLocalError (name : string)
| CommTimeoutError (msg : string)
| httpx_TimeoutException
| httpx_RequestError (cause : string)
| httpx_HTTPStatusError (status : Z) (detail : string).

(** [str(ex)] *)
Definition str_exn (ex : exn) : string :=
  match ex with
  | RequestParameterError m | RequestTimeoutError m _ | RequestFailedError m _ _
  | HTTPRequestError m | HTTPClientError m | CommTimeoutError m => m
  | UnboundLocalError n => "local variable '" ++ n ++ "' referenced before assignment"
  | httpx_TimeoutException => "timed out"
  | httpx_RequestError c => c
  | httpx_HTTPStatusError s d => str_of_Z s ++ ": " ++ d
  end.

(** [isinstance(ex, self.HTTPClientError)] *)
Definition is_HTTPClientError (ex : exn) : bool :=
  match ex with HTTPClientError _ => true | _ => false end.

(** The typed kinds that a caller of the client may see. *)
Definition typed_error (ex : exn) : bool :=
  match ex with
  | RequestParameterError _ | RequestTimeoutError _ _ | RequestFailedError _ _ _
  | HTTPRequestError _ | HTTPClientError _ => true
  | _ => false
  end.

(** ** A state-and-exception monad *)

Inductive outcome (A : Type) : Type :=
| Ret (a : A)
| Raise (ex : exn).
Arguments Ret {A} a.
Arguments Raise {A} ex.

Definition M (S A : Type) : Type := S -> outcome A * S.

Definition ret {S A} (a : A) : M S A := fun s => (Ret a, s).
Definition raise {S A} (ex : exn) : M S A := fun s => (Raise ex, s).
Definition bind {S A B} (c : M S A) (k : A -> M S B) : M S B :=
  fun s => match c s with
           | (Ret a, s') => k a s'
           | (Raise ex, s') => (Raise ex, s')
           end.
(** [try: c  except Exception as ex: h ex] *)
Definition try_except {S A} (c : M S A) (h : exn -> M S A) : M S A :=
  fun s => match c s with
           | (Ret a, s') => (Ret a, s')
           | (Raise ex, s') => h ex s'
           end.
Definition modify {S} (f : S -> S) : M S unit := fun s => (Ret tt, f s).

Notation "'let*' x ':=' c 'in' k" := (bind c (fun x => k))
  (at level 10, x name, c at level 100, k at level 200).
Notation "'let*' ' pat ':=' c 'in' k" :=
  (bind c (fun x => match x with pat => k end))
  (at level 10, pat pattern, c at level 100, k at level 200).
Notation "'run' c 'then' k" := (bind c (fun _ => k))
  (at level 10, c at level 100, k at level 200).

(** ** The response validator *)

Module Validator.

(** The text that follows ["Request failed: "].  A sequence never fails, so
    its case is never used. *)
Definition failure_text (response : value) : string :=
  match response with
  | VDict d =>
      match d !! "msg" with
      | Some (VScalar (SStr m)) => if String.eqb m "" then "(no error message)" else m
      | _ => "(no error message)"
      end
  | VNone => "None"
  | VScalar x => repr_scalar x
  | VList _ => ""
  end.

(** Does the payload report a failure? *)
Definition failed (response : value) : bool :=
  match response with
  | VNone | VScalar _ => true
  | VList _ => false
  | VDict d =>
      match d !! "success" with
      | Some v => py_eq_False v
      | None => false
      end
  end.

(** Modelled from the spec: [ReManagerAPI_Base._check_response] and the
    message of [RequestFailedError], both of [comm_base.py].  Section 4.1:
    with [request_fail_exceptions] disabled the response is always returned;
    [None] and scalars fail with ["Request failed: {response!r}"]; a mapping
    fails only when [success == false], with its non-empty [msg] or
    ["(no error message)"]; sequences and mappings without [success] pass.
    The error carries the request and the response.  A [msg] that is not a
    text is outside the structured-response convention and counts as absent. *)
Definition _check_response {S} (request_fail_exceptions : bool)
    (rq : request) (response : value) : M S value :=
  if request_fail_exceptions && failed response
  then raise (RequestFailedError ("Request failed: " ++ failure_text response) rq response)
  else ret response.

End Validator.


(** ** The outside world *)

(** The keyword arguments of [self._client.request(verb, endpoint, **kwargs)]:
    [json] is always there, the others only when [_simple_request] adds
    them. *)
Record http_kwargs : Type := mk_kwargs {
  kw_json : value;
  kw_params : option value;
  kw_headers : option value;
  kw_data : option value;
  kw_timeout : option Q
}.

Record http_call : Type := mk_call {
  call_verb : string;
  call_endpoint : string;
  call_kwargs : http_kwargs
}.

(** The [httpx.Response] a call comes back with. *)
Record client_response : Type := mk_client_response {
  status_code : Z;
  detail : string;
  body : value
}.

(** What the HTTP transport does with one call. *)
Inductive transport_result : Type :=
| Conn_timeout
| Conn_failure (cause : string)
| Http_response (r : client_response).

(** What the ZMQ transport does with one message. *)
Inductive zmq_result : Type :=
| Zmq_reply (response : value)
| Zmq_failure (ex : exn).

(** Effects visible outside the client object, oldest first.
    [Ev_disable_wait timeout closing] is a call of the console monitor's
    [disable_wait(timeout=...)]; [closing] is the value of the client's
    [_is_closing] flag while the call runs. *)
Inductive event : Type :=
| Ev_request (c : http_call)
| Ev_send_message (name : string) (params : value)
| Ev_print (text : string)
| Ev_disable_wait (timeout : Q) (closing : bool)
| Ev_client_close.

(** The collaborators outside the repository: the servers behind the two
    transports, the console monitor and the transport handle.  Each answers
    from the history of effects so far; [None] means the call returns. *)
Record environment : Type := mk_environment {
  server : list event -> http_call -> transport_result;
  zmq_server : list event -> string -> value -> zmq_result;
  monitor_disable_wait : list event -> Q -> option exn;
  handle_close : list event -> option exn
}.

(** A client object together with the effects it has had. *)
Record world (C : Type) : Type := mk_world {
  self : C;
  log : list event
}.
Arguments mk_world {C} self log.
Arguments self {C} w.
Arguments log {C} w.

Definition emit {C} (e : event) : M (world C) unit :=
  modify (fun w => mk_world (self w) (log w ++ [e])).

Definition print {C} (text : string) : M (world C) unit := emit (Ev_print text).

Definition is_request (e : event) : bool :=
  match e with Ev_request _ => true | _ => false end.

(** The number of HTTP transport calls in a stretch of the log. *)
Definition requests (l : list event) : nat := length (filter is_request l).

(** [self._console_monitor.disable_wait(timeout=timeout)] *)
Definition disable_wait {C} (env : environment) (is_closing : C -> bool) (timeout : Q)
  : M (world C) unit :=
  fun w =>
    let w' := mk_world (self w) (log w ++ [Ev_disable_wait timeout (is_closing (self w))]) in
    match monitor_disable_wait env (log w) timeout with
    | None => (Ret tt, w')
    | Some ex => (Raise ex, w')
    end.

(** [self._client.close()] *)
Definition client_close {C} (env : environment) : M (world C) unit :=
  fun w =>
    let w' := mk_world (self w) (log w ++ [Ev_client_close]) in
    match handle_close env (log w) with
    | None => (Ret tt, w')
    | Some ex => (Raise ex, w')
    end.

(** ** Authorization *)

Inductive AuthorizationMethods : Type := NONE | PASSWORD_LOGIN | API_KEY | TOKEN.

Definition AuthorizationMethods_eqb (a b : AuthorizationMethods) : bool :=
  match a, b with
  | NONE, NONE | PASSWORD_LOGIN, PASSWORD_LOGIN | API_KEY, API_KEY | TOKEN, TOKEN => true
  | _, _ => false
  end.

(** Modelled from the spec: the authorization attributes of
    [ReManagerAPI_HTTP_Base] ([comm_base.py]).  Section 3: the state is one of
    NONE, PASSWORD_LOGIN, API_KEY, TOKEN_PAIR and holds at most a raw API key
    or the pair (access token, refresh token); [auth_key] of the token method
    is that pair, either half of which may be [None]. *)
Inductive AuthorizationState : Type :=
| Auth_NONE
| Auth_PASSWORD_LOGIN
| Auth_API_KEY (api_key : string)
| Auth_TOKEN (token refresh_token : option string).

(** Modelled from the spec: [set_authorization_key(api_key=None, token=None)]
    of [comm_base.py], a local mutation with no network call; without
    arguments it clears the state.  The spec does not say what happens when
    both arguments are given; the API key is taken here, and no call in
    [comm_threads.py] passes any argument. *)
Definition set_authorization_key (api_key token : option string) : AuthorizationState :=
  match api_key, token with
  | Some k, _ => Auth_API_KEY k
  | None, Some t => Auth_TOKEN (Some t) None
  | None, None => Auth_NONE
  end.

(** ** The HTTP client *)

Module ReManagerComm_HTTP_Threads.

Record Client : Type := mk_Client {
  _is_closing : bool;
  _request_fail_exceptions : bool;
  _auth : AuthorizationState;
  _console_monitor_poll_period : Q;
  _timeout_login : option Q
}.

(** [self.auth_method] *)
Definition auth_method (c : Client) : AuthorizationMethods :=
  match _auth c with
  | Auth_NONE => NONE
  | Auth_PASSWORD_LOGIN => PASSWORD_LOGIN
  | Auth_API_KEY _ => API_KEY
  | Auth_TOKEN _ _ => TOKEN
  end.

(** [self.auth_key[1]], read only under [auth_method == TOKEN]. *)
Definition auth_key_1 (c : Client) : option string :=
  match _auth c with
  | Auth_TOKEN _ refresh_token => refresh_token
  | _ => None
  end.

Definition with_auth (a : AuthorizationState) (c : Client) : Client :=
  mk_Client (_is_closing c) (_request_fail_exceptions c) a
            (_console_monitor_poll_period c) (_timeout_login c).

Definition with_is_closing (b : bool) (c : Client) : Client :=
  mk_Client b (_request_fail_exceptions c) (_auth c)
            (_console_monitor_poll_period c) (_timeout_login c).

(** The keyword arguments of [send_request] and [_simple_request]; an omitted
    argument is [None]. *)
Record request_params : Type := mk_request_params {
  rp_method : method;
  rp_params : value;
  rp_url_params : value;
  rp_headers : value;
  rp_data : value;
  rp_timeout : option Q
}.

(** [send_request(method=m)] with every other argument left out. *)
Definition only_method (m : method) : request_params :=
  mk_request_params m VNone VNone VNone VNone None.

(** What [comm_threads.py] takes from [ReManagerAPI_HTTP_Base] without the
    spec fixing it: the REST table, the timeout adjustment, the header built
    from the stored credentials, what a login response does to the stored
    credentials, and the helpers that prepare the arguments of the
    authentication calls.  The helpers read the client and may raise. *)
Record comm_base : Type := mk_comm_base {
  _rest_api_method_map : gmap string (string * string);
  _adjust_timeout : Q -> Q;
  _prepare_headers : AuthorizationState -> value;
  _process_login_response :
    value -> AuthorizationState -> outcome value * AuthorizationState;
  _prepare_login :
    Client -> option string -> option string -> option string -> outcome (string * value);
  _prepare_session_revoke :
    Client -> string -> option string -> option string -> outcome (method * value);
  _prepare_apikey_new :
    Client -> Z -> value -> value -> value -> outcome (method * value);
  _prepare_apikey_info : Client -> option string -> outcome value;
  _prepare_apikey_delete :
    Client -> string -> option string -> option string -> outcome (value * value);
  _prepare_whoami : Client -> option string -> option string -> outcome value;
  _prepare_principal_info : Client -> option string -> outcome method
}.

Section Comm.

Variable base : comm_base.
Variable env : environment.

#[local] Abbreviation W := (world Client).

(** A helper that reads the client. *)
Definition reading {A} (f : Client -> outcome A) : M W A :=
  fun w => (f (self w), w).

(** [self._process_login_response(response=response)] *)
Definition process_login_response (response : value) : M W value :=
  fun w =>
    let '(r, a) := _process_login_response base response (_auth (self w)) in
    (r, mk_world (with_auth a (self w)) (log w)).

(** [self._check_response(request=..., response=...)] *)
Definition _check_response (rq : request) (response : value) : M W value :=
  fun w => Validator._check_response (_request_fail_exceptions (self w)) rq response w.

(** Modelled from the spec: [_prepare_request] of [comm_base.py].  Section
    4.3: a bare name goes through the method table, an unknown one raises
    [RequestParameterError] with the text [Unknown method '<name>']; an
    explicit (verb, endpoint) pair is used as it is; [params] becomes the
    JSON body. *)
Definition _prepare_request (m : method) (params : value) : M W (string * string * value) :=
  match m with
  | MName name =>
      match _rest_api_method_map base !! name with
      | Some (request_method, endpoint) => ret (request_method, endpoint, params)
      | None => raise (RequestParameterError ("Unknown method '" ++ name ++ "'"))
      end
  | MPair request_method endpoint => ret (request_method, endpoint, params)
  end.

(** [self._client.request(request_method, endpoint, **kwargs)]: the call is
    logged and the transport answers it. *)
Definition client_request (request_method endpoint : string) (kwargs : http_kwargs)
  : M W client_response :=
  fun w =>
    let c := mk_call request_method endpoint kwargs in
    let w' := mk_world (self w) (log w ++ [Ev_request c]) in
    match server env (log w) c with
    | Conn_timeout => (Raise httpx_TimeoutException, w')
    | Conn_failure cause => (Raise (httpx_RequestError cause), w')
    | Http_response r => (Ret r, w')
    end.

(** Modelled from the spec: [_process_response] of [comm_base.py].  Section
    4.3: a 2xx response is decoded, any other status is an error that carries
    the status code and the server's detail text. *)
Definition _process_response (r : client_response) : M W value :=
  if Z.leb 200 (status_code r) && Z.ltb (status_code r) 300
  then ret (body r)
  else raise (httpx_HTTPStatusError (status_code r) (detail r)).

(** Modelled from the spec: [_process_comm_exception] of [comm_base.py], the
    comm-exception translator of sections 4.2 and 4.3.  It always raises: a
    timeout becomes [RequestTimeoutError], a connection failure
    [HTTPRequestError] with [HTTP request error: <cause>], a non-2xx status
    [HTTPClientError] with [<status>: <detail>]; an error of the taxonomy
    passes through, anything else becomes [HTTPRequestError].  The text of
    the timeout error is not fixed by the spec. *)
Definition _process_comm_exception (m : method) (params : value)
    (response : option client_response) (ex : exn) : M W value :=
  match ex with
  | httpx_TimeoutException => raise (RequestTimeoutError (str_exn ex) (mk_request m params))
  | httpx_RequestError cause => raise (HTTPRequestError ("HTTP request error: " ++ cause))
  | httpx_HTTPStatusError status detail =>
      raise (HTTPClientError (str_of_Z status ++ ": " ++ detail))
  | UnboundLocalError _ | CommTimeoutError _ =>
      raise (HTTPRequestError ("HTTP request error: " ++ str_exn ex))
  | RequestParameterError _ | RequestTimeoutError _ _ | RequestFailedError _ _ _
  | HTTPRequestError _ | HTTPClientError _ => raise ex
  end.

(** The [try] block of [_simple_request].  Besides the outcome it yields the
    locals [params] and [client_response] as they stand when the block ends,
    for the [except] clause and the validation that follow. *)
Definition _simple_request_try (rp : request_params)
  : W -> outcome value * (value * option client_response) * W :=
  fun w =>
    match _prepare_request (rp_method rp) (rp_params rp) w with
    | (Raise ex, w1) => (Raise ex, (rp_params rp, None), w1)
    | (Ret (request_method, endpoint, params), w1) =>
        let headers :=
          if truthy (rp_headers rp) then rp_headers rp
          else _prepare_headers base (_auth (self w1)) in
        let kwargs :=
          {| kw_json := params;
             kw_params := if truthy (rp_url_params rp) then Some (rp_url_params rp) else None;
             kw_headers := if truthy headers then Some headers else None;
             kw_data := if truthy (rp_data rp) then Some (rp_data rp) else None;
             kw_timeout := match rp_timeout rp with
                           | Some t => Some (_adjust_timeout base t)
                           | None => None
                           end |} in
        match client_request request_method endpoint kwargs w1 with
        | (Raise ex, w2) => (Raise ex, (params, None), w2)
        | (Ret r, w2) =>
            let '(o, w3) := _process_response r w2 in (o, (params, Some r), w3)
        end
    end.

Definition _simple_request (rp : request_params) : M W value :=
  fun w =>
    let '(o, (params, client_response), w1) := _simple_request_try rp w in
    (let* response :=
       match o with
       | Ret response => ret response
       | Raise ex => _process_comm_exception (rp_method rp) params client_response ex
       end in
     run _check_response (mk_request (rp_method rp) params) response then
     ret response) w1.

(** The condition under which [send_request] sets its local [refresh]. *)
Definition refresh_wanted (auto_refresh_session : bool) (ex : exn) (c : Client) : bool :=
  auto_refresh_session
  && contains "401: Access token has expired" (str_exn ex)
  && AuthorizationMethods_eqb (auth_method c) TOKEN
  && match auth_key_1 c with Some _ => true | None => false end.

(** The first [try] of [send_request]: it yields the locals [response]
    (unbound when the attempt failed) and [refresh]. *)
Definition send_request_attempt (rp : request_params) (auto_refresh_session : bool)
  : M W (option value * bool) :=
  fun w =>
    match _simple_request rp w with
    | (Ret response, w1) => (Ret (Some response, false), w1)
    | (Raise ex, w1) =>
        if is_HTTPClientError ex
        then if refresh_wanted auto_refresh_session ex (self w1)
             then (Ret (None, true), w1)
             else (Raise ex, w1)
        else (Raise ex, w1)
    end.

(** The body of [send_request], with the [self.session_refresh()] it calls
    taken as an argument. *)
Definition send_request_body (session_refresh : M W value)
    (rp : request_params) (auto_refresh_session : bool) : M W value :=
  let* '(response, refresh) := send_request_attempt rp auto_refresh_session in
  if (refresh : bool) then
    run try_except (run session_refresh then ret tt)
                   (fun ex => print ("Failed to refresh session: " ++ str_exn ex)) then
    _simple_request rp
  else
    match response with
    | Some response => ret response
    | None => raise (UnboundLocalError "response")
    end.

(** Modelled from the spec: [_prepare_refresh_session] of [comm_base.py].
    Section 4.5: the refresh token passed in, else the stored one;
    [RequestParameterError] when there is neither.  The text of the error is
    not fixed by the spec. *)
Definition _prepare_refresh_session (refresh_token : option string) : M W string :=
  fun w =>
    match refresh_token with
    | Some t => (Ret t, w)
    | None =>
        match auth_key_1 (self w) with
        | Some t => (Ret t, w)
        | None => (Raise (RequestParameterError "Refresh token is not set"), w)
        end
    end.

(** [session_refresh], with the [self.send_request] it calls as an argument. *)
Definition session_refresh_body (send_request : request_params -> bool -> M W value)
    (refresh_token : option string) : M W value :=
  let* refresh_token := _prepare_refresh_session refresh_token in
  let* response :=
    send_request
      (mk_request_params (MName "session_refresh")
         (VDict {[ "refresh_token" := VText refresh_token ]}) VNone VNone VNone None)
      false in
  let* response := process_login_response response in
  ret response.

(** [send_request] and [session_refresh] call each other.  [session_refresh]
    passes [auto_refresh_session=False], and with it [send_request] never
    reaches its own call of [session_refresh] (see [send_request_no_auto]
    below); the knot is untied there. *)
Definition session_refresh (refresh_token : option string) : M W value :=
  session_refresh_body
    (send_request_body (raise (UnboundLocalError "session_refresh")))
    refresh_token.

Definition send_request (rp : request_params) (auto_refresh_session : bool) : M W value :=
  send_request_body (session_refresh None) rp auto_refresh_session.

(** *** Authentication and session calls *)

Definition login (username password provider : option string) : M W value :=
  let* '(endpoint, data) :=
    reading (fun c => _prepare_login base c username password provider) in
  let* timeout_login := reading (fun c => Ret (_timeout_login c)) in
  let* response :=
    send_request
      (mk_request_params (MPair "POST" endpoint) VNone VNone VNone data timeout_login)
      false in
  let* response := process_login_response response in
  ret response.

Definition session_revoke (session_uid : string) (token api_key : option string)
  : M W value :=
  let* '(m, headers) :=
    reading (fun c => _prepare_session_revoke base c session_uid token api_key) in
  let* response :=
    if truthy headers
    then send_request (mk_request_params m VNone VNone headers VNone None) false
    else send_request (only_method m) true in
  ret response.


Definition apikey_info (api_key : option string) : M W value :=
  let* headers := reading (fun c => _prepare_apikey_info base c api_key) in
  let* response :=
    if truthy headers
    then send_request
           (mk_request_params (MName "apikey_info") VNone VNone headers VNone None) false
    else send_request (only_method (MName "apikey_info")) true in
  ret response.

Definition apikey_delete (first_eight : string) (token api_key : option string)
  : M W value :=
  let* '(url_params, headers) :=
    reading (fun c => _prepare_apikey_delete base c first_eight token api_key) in
  let* response :=
    if truthy headers
    then send_request
           (mk_request_params (MName "apikey_delete") VNone url_params headers VNone None)
           false
    else send_request
           (mk_request_params (MName "apikey_delete") VNone url_params VNone VNone None)
           true in
  ret response.

Definition whoami (token api_key : option string) : M W value :=
  let* headers := reading (fun c => _prepare_whoami base c token api_key) in
  let* response :=
    if truthy headers
    then send_request
           (mk_request_params (MName "whoami") VNone VNone headers VNone None) false
    else send_request (only_method (MName "whoami")) true in
  ret response.


Definition api_scopes (token api_key : option string) : M W value :=
  let* headers := reading (fun c => _prepare_whoami base c token api_key) in
  let* response :=
    if truthy headers
    then send_request
           (mk_request_params (MName "api_scopes") VNone VNone headers VNone None) false
    else send_request (only_method (MName "api_scopes")) true in
  ret response.

Definition logout : M W value :=
  let* response := send_request (only_method (MName "logout")) true in
  run modify (fun w => mk_world (with_auth (set_authorization_key None None) (self w))
                                (log w)) then
  ret response.

(** *** Teardown *)

Definition close : M W unit :=
  run modify (fun w => mk_world (with_is_closing true (self w)) (log w)) then
  let* poll_period := reading (fun c => Ret (_console_monitor_poll_period c)) in
  run disable_wait env _is_closing (poll_period * 10)%Q then
  client_close env.

Definition __del__ : M W unit :=
  modify (fun w => mk_world (with_is_closing true (self w)) (log w)).

End Comm.

End ReManagerComm_HTTP_Threads.

(** ** The ZMQ client *)

Module ReManagerComm_ZMQ_Threads.

Record Client : Type := mk_Client {
  _is_closing : bool;
  _request_fail_exceptions : bool;
  _console_monitor_poll_timeout : Q
}.

Definition with_is_closing (b : bool) (c : Client) : Client :=
  mk_Client b (_request_fail_exceptions c) (_console_monitor_poll_timeout c).

(** What [comm_threads.py] takes from [ReManagerAPI_ZMQ_Base] without the spec
    fixing it: the comm-exception translator that the [except] clause of
    [send_request] calls.  It reads the client, the method, the parameters
    and the error in flight, and raises an error of its choice; should it
    return instead, [send_request] goes on to its next statement. *)
Record comm_base : Type := mk_comm_base {
  _process_comm_exception : Client -> string -> value -> exn -> outcome unit
}.

Section Comm.

Variable base : comm_base.
Variable env : environment.

#[local] Abbreviation W := (world Client).

(** [self._client.send_message(method=method, params=params)] *)
Definition send_message (name : string) (params : value) : M W value :=
  fun w =>
    let w' := mk_world (self w) (log w ++ [Ev_send_message name params]) in
    match zmq_server env (log w) name params with
    | Zmq_reply response => (Ret response, w')
    | Zmq_failure ex => (Raise ex, w')
    end.

Definition _check_response (rq : request) (response : value) : M W value :=
  fun w => Validator._check_response (_request_fail_exceptions (self w)) rq response w.

Definition send_request (name : string) (params : value) : M W value :=
  let* response :=
    try_except (send_message name params)
      (fun ex =>
         run (fun w => (_process_comm_exception base (self w) name params ex, w)) then
         raise (UnboundLocalError "response")) in
  run _check_response (mk_request (MName name) params) response then
  ret response.

Definition close : M W unit :=
  run modify (fun w => mk_world (with_is_closing true (self w)) (log w)) then
  let* poll_timeout := (fun w => (Ret (_console_monitor_poll_timeout (self w)), w)) in
  run disable_wait env _is_closing (poll_timeout * 10)%Q then
  client_close env.

Definition __del__ : M W unit :=
  modify (fun w => mk_world (with_is_closing true (self w)) (log w)).

End Comm.

End ReManagerComm_ZMQ_Threads.

Module HTTP := ReManagerComm_HTTP_Threads.
Module ZMQ := ReManagerComm_ZMQ_Threads.

(** ** Observations on a run *)

(** The effects a run from [w] to [w'] has added to the log. *)
Definition new_events {C} (w w' : world C) : list event :=
  drop (length (log w)) (log w').

(** The value of the local [refresh] of [send_request] when its first [try]
    is over (false when that [try] lets an error out). *)
Definition takes_refresh (base : HTTP.comm_base) (env : environment)
    (rp : HTTP.request_params) (auto_refresh_session : bool)
    (w : world HTTP.Client) : bool :=
  match HTTP.send_request_attempt base env rp auto_refresh_session w with
  | (Ret (_, refresh), _) => refresh
  | (Raise _, _) => false
  end.

(** The refresh step of [send_request]: one call of [session_refresh], its
    error, if any, printed and dropped. *)
Definition refresh_step (base : HTTP.comm_base) (env : environment)
  : M (world HTTP.Client) unit :=
  try_except (run HTTP.session_refresh base env None then ret tt)
             (fun ex => print ("Failed to refresh session: " ++ str_exn ex)).

(** Two transport calls built from the same request parameters: everything
    but the headers agrees, and the headers agree too when the caller passed
    some. *)
Definition same_request (rp : HTTP.request_params) (c1 c2 : http_call) : Prop :=
  call_verb c1 = call_verb c2
  /\ call_endpoint c1 = call_endpoint c2
  /\ kw_json (call_kwargs c1) = kw_json (call_kwargs c2)
  /\ kw_params (call_kwargs c1) = kw_params (call_kwargs c2)
  /\ kw_data (call_kwargs c1) = kw_data (call_kwargs c2)
  /\ kw_timeout (call_kwargs c1) = kw_timeout (call_kwargs c2)
  /\ (truthy (HTTP.rp_headers rp) = true ->
      kw_headers (call_kwargs c1) = kw_headers (call_kwargs c2)).

(** The verb and endpoint a method stands for, if any. *)
Definition resolve (base : HTTP.comm_base) (m : method) : option (string * string) :=
  match m with
  | MName name => HTTP._rest_api_method_map base !! name
  | MPair request_method endpoint => Some (request_method, endpoint)
  end.

Definition method_name (m : method) : string :=
  match m with MName name => name | MPair _ _ => "" end.

(** The transport call that [_simple_request] builds from its arguments under
    the stored credentials [a]; none when the method is unknown. *)
Definition planned_call (base : HTTP.comm_base) (rp : HTTP.request_params)
    (a : AuthorizationState) : option http_call :=
  match resolve base (HTTP.rp_method rp) with
  | None => None
  | Some (request_method, endpoint) =>
      let headers :=
        if truthy (HTTP.rp_headers rp) then HTTP.rp_headers rp
        else HTTP._prepare_headers base a in
      Some (mk_call request_method endpoint
              {| kw_json := HTTP.rp_params rp;
                 kw_params := if truthy (HTTP.rp_url_params rp)
                              then Some (HTTP.rp_url_params rp) else None;
                 kw_headers := if truthy headers then Some headers else None;
                 kw_data := if truthy (HTTP.rp_data rp)
                            then Some (HTTP.rp_data rp) else None;
                 kw_timeout := option_map (HTTP._adjust_timeout base) (HTTP.rp_timeout rp) |})
  end.

(** What [_simple_request] makes of the transport's answer. *)
Definition answer (request_fail_exceptions : bool) (rp : HTTP.request_params)
    (t : transport_result) : outcome value :=
  let rq := mk_request (HTTP.rp_method rp) (HTTP.rp_params rp) in
  match t with
  | Conn_timeout => Raise (RequestTimeoutError "timed out" rq)
  | Conn_failure cause => Raise (HTTPRequestError ("HTTP request error: " ++ cause))
  | Http_response r =>
      if Z.leb 200 (status_code r) && Z.ltb (status_code r) 300
      then if request_fail_exceptions && Validator.failed (body r)
           then Raise (RequestFailedError
                         ("Request failed: " ++ Validator.failure_text (body r)) rq (body r))
           else Ret (body r)
      else Raise (HTTPClientError (str_of_Z (status_code r) ++ ": " ++ detail r))
  end.


(** [n] calls in a row. *)
Fixpoint times {S} (n : nat) (c : M S unit) : M S unit :=
  match n with
  | O => ret tt
  | S n' => run c then times n' c
  end.

(** ** Example collaborators *)

Module Scenario.

Definition table : gmap string (string * string) :=
  list_to_map
    [ ("queue_item_add", ("POST", "/api/queue/item/add"));
      ("session_refresh", ("POST", "/api/auth/session/refresh"));
      ("apikey_info", ("GET", "/api/auth/apikey"));
      ("whoami", ("GET", "/api/auth/whoami"));
      ("logout", ("POST", "/api/auth/logout")) ].

Definition bearer (t : string) : value :=
  VDict {[ "Authorization" := VText ("Bearer " ++ t) ]}.

Definition apikey_header (k : string) : value :=
  VDict {[ "Authorization" := VText ("ApiKey " ++ k) ]}.

Definition override (token api_key : option string) : value :=
  match token, api_key with
  | Some t, _ => bearer t
  | None, Some k => apikey_header k
  | None, None => VNone
  end.

Definition prepare_headers (a : AuthorizationState) : value :=
  match a with
  | Auth_API_KEY k => apikey_header k
  | Auth_TOKEN (Some t) _ => bearer t
  | Auth_TOKEN None _ => bearer "None"
  | Auth_NONE | Auth_PASSWORD_LOGIN => VNone
  end.

Definition process_login_response (response : value) (a : AuthorizationState)
  : outcome value * AuthorizationState :=
  match response with
  | VDict d =>
      match d !! "access_token", d !! "refresh_token" with
      | Some (VScalar (SStr t)), Some (VScalar (SStr r)) =>
          (Ret response, Auth_TOKEN (Some t) (Some r))
      | _, _ => (Ret response, a)
      end
  | _ => (Ret response, a)
  end.

Definition base : HTTP.comm_base :=
  {| HTTP._rest_api_method_map := table;
     HTTP._adjust_timeout := fun t => t;
     HTTP._prepare_headers := prepare_headers;
     HTTP._process_login_response := process_login_response;
     HTTP._prepare_login := fun _ username password provider =>
       Ret ("/api/auth/provider/toy/token",
            VDict {[ "username" := VText (default "" username) ]});
     HTTP._prepare_session_revoke := fun _ session_uid token api_key =>
       Ret (MPair "DELETE" ("/api/auth/session/revoke/" ++ session_uid),
            override token api_key);
     HTTP._prepare_apikey_new := fun _ expires_in scopes note principal_uid =>
       Ret (MPair "POST" "/api/auth/apikey",
            VDict {[ "expires_in" := VScalar (SInt expires_in) ]});
     HTTP._prepare_apikey_info := fun _ api_key => Ret (override None api_key);
     HTTP._prepare_apikey_delete := fun _ first_eight token api_key =>
       Ret (VDict {[ "first_eight" := VText first_eight ]}, override token api_key);
     HTTP._prepare_whoami := fun _ token api_key => Ret (override token api_key);
     HTTP._prepare_principal_info := fun _ principal_uid =>
       Ret (match principal_uid with
            | Some uid => MPair "GET" ("/api/auth/principal/" ++ uid)
            | None => MName "whoami"
            end) |}.

Definition ok_body : value := VDict {[ "success" := VTrue ]}.

Definition expired : transport_result :=
  Http_response (mk_client_response 401 "Access token has expired" VNone).

Definition sent_with (t : string) (c : http_call) : bool :=
  match kw_headers (call_kwargs c) with
  | Some (VDict d) =>
      match d !! "Authorization" with
      | Some (VScalar (SStr s)) => String.eqb s ("Bearer " ++ t)
      | _ => false
      end
  | _ => false
  end.

(** A server for which the access token [old] has expired and which issues
    the pair ([new], [next]) on a refresh. *)
Definition server_expiring (history : list event) (c : http_call) : transport_result :=
  if String.eqb (call_endpoint c) "/api/auth/session/refresh"
  then Http_response
         (mk_client_response 200 ""
            (VDict (<[ "access_token" := VText "new" ]>
                      {[ "refresh_token" := VText "next" ]})))
  else if sent_with "old" c then expired
  else Http_response (mk_client_response 200 "" ok_body).

(** A server that finds every token expired, also on a refresh. *)
Definition server_expired (history : list event) (c : http_call) : transport_result :=
  expired.

(** A server that answers every call with a structured failure. *)
Definition rejected_body : value :=
  VDict (<[ "success" := VFalse ]> {[ "msg" := VText "not allowed" ]}).

Definition server_rejecting (history : list event) (c : http_call) : transport_result :=
  Http_response (mk_client_response 200 "" rejected_body).

(** No server is listening. *)
Definition server_down (history : list event) (c : http_call) : transport_result :=
  Conn_failure "[Errno 111] Connection refused".

Definition zmq_ok (history : list event) (name : string) (params : value) : zmq_result :=
  Zmq_reply ok_body.

Definition env_with (srv : list event -> http_call -> transport_result) : environment :=
  {| server := srv;
     zmq_server := zmq_ok;
     monitor_disable_wait := fun _ _ => None;
     handle_close := fun _ => None |}.

Definition client (a : AuthorizationState) : HTTP.Client :=
  HTTP.mk_Client false true a (1 # 2) (Some (10 # 1)).

Definition start (a : AuthorizationState) : world HTTP.Client :=
  mk_world (client a) [].

(** The same client with [request_fail_exceptions] disabled. *)
Definition lenient_start (a : AuthorizationState) : world HTTP.Client :=
  mk_world (HTTP.mk_Client false false a (1 # 2) (Some (10 # 1))) [].

Definition token_pair : AuthorizationState := Auth_TOKEN (Some "old") (Some "refresh").

Definition zmq_start : world ZMQ.Client :=
  mk_world (ZMQ.mk_Client false true (1 # 1)) [].

(** A translator for the ZMQ client: a transport timeout becomes
    [RequestTimeoutError] keeping the request, anything else is raised again. *)
Definition zmq_base : ZMQ.comm_base :=
  {| ZMQ._process_comm_exception := fun _ name params ex =>
       match ex with
       | CommTimeoutError msg =>
           Raise (RequestTimeoutError ("Request timeout: " ++ msg)
                    (mk_request (MName name) params))
       | _ => Raise ex
       end |}.

End Scenario.

(** ** Collaborators that fail *)

Module Faults.

(** A console monitor whose stop raises. *)
Definition env_monitor_fails : environment :=
  {| server := Scenario.server_down;
     zmq_server := Scenario.zmq_ok;
     monitor_disable_wait := fun _ _ => Some (HTTPRequestError "monitor");
     handle_close := fun _ => None |}.

(** A transport handle whose release raises. *)
Definition env_handle_fails : environment :=
  {| server := Scenario.server_down;
     zmq_server := Scenario.zmq_ok;
     monitor_disable_wait := fun _ _ => None;
     handle_close := fun _ => Some (HTTPRequestError "handle") |}.

(** A ZMQ server that does not answer in time. *)
Definition env_zmq_silent : environment :=
  {| server := Scenario.server_down;
     zmq_server := fun _ _ _ => Zmq_failure (CommTimeoutError "timeout occurred");
     monitor_disable_wait := fun _ _ => None;
     handle_close := fun _ => None |}.

(** A ZMQ server that rejects every request. *)
Definition env_zmq_rejecting : environment :=
  {| server := Scenario.server_rejecting;
     zmq_server := fun _ _ _ => Zmq_reply Scenario.rejected_body;
     monitor_disable_wait := fun _ _ => None;
     handle_close := fun _ => None |}.

End Faults.


(** * Properties *)

(** ** The monad *)

Lemma world_eta {C} (w : world C) : mk_world (self w) (log w) = w.
Proof. now destruct w. Qed.

Lemma new_events_app {C} (w : world C) (c : C) (l : list event) :
  new_events w (mk_world c (log w ++ l)) = l.
Proof. unfold new_events. simpl. now rewrite drop_app_length. Qed.

Lemma new_events_same {C} (w : world C) (c : C) :
  new_events w (mk_world c (log w)) = [].
Proof. unfold new_events. simpl. apply drop_all. Qed.

Lemma contains_refl (s : string) : contains s s = true.
Proof.
  assert (H : String.prefix s s = true).
  { induction s as [| a s IH]; simpl; [reflexivity |].
    destruct (ascii_dec a a); [exact IH | congruence]. }
  destruct s; simpl in *; [reflexivity | now rewrite H].
Qed.

(** ** One attempt *)

(** Once the call is built: one case per answer of the transport, then per
    verdict of the status check and of the validator. *)
Ltac transport_cases env c l timeout :=
  unfold HTTP.client_request; simpl;
  destruct timeout; simpl;
  destruct (server env l _) as [| cause | r]; simpl; try reflexivity;
  unfold HTTP._process_response;
  destruct (Z.leb 200 (status_code r) && Z.ltb (status_code r) 300); simpl;
  try reflexivity;
  unfold bind, HTTP._check_response, Validator._check_response; simpl;
  destruct (HTTP._request_fail_exceptions c && Validator.failed (body r));
  reflexivity.

Section Attempt.

Variable base : HTTP.comm_base.
Variable env : environment.

(** [_simple_request] fails before the transport when the method is unknown;
    otherwise it makes exactly the planned call and turns the transport's
    answer into its outcome.  It never touches the client object. *)
Lemma simple_request_eq (rp : HTTP.request_params) (w : world HTTP.Client) :
  HTTP._simple_request base env rp w =
  match planned_call base rp (HTTP._auth (self w)) with
  | None =>
      (Raise (RequestParameterError
                ("Unknown method '" ++ method_name (HTTP.rp_method rp) ++ "'")), w)
  | Some c =>
      (answer (HTTP._request_fail_exceptions (self w)) rp (server env (log w) c),
       mk_world (self w) (log w ++ [Ev_request c]))
  end.
Proof.
  destruct w as [c l], rp as [m params url_params headers data timeout].
  unfold HTTP._simple_request, HTTP._simple_request_try, planned_call, resolve.
  destruct m as [name | request_method endpoint]; simpl.
  - destruct (HTTP._rest_api_method_map base !! name) as [[request_method endpoint] |];
      simpl; [transport_cases env c l timeout | reflexivity].
  - transport_cases env c l timeout.
Qed.

Lemma simple_request_self (rp : HTTP.request_params) (w : world HTTP.Client) :
  self (snd (HTTP._simple_request base env rp w)) = self w.
Proof.
  rewrite simple_request_eq. now destruct (planned_call base rp _).
Qed.

(** An attempt adds at most one transport call to the log, and nothing else. *)
Lemma simple_request_log (rp : HTTP.request_params) (w : world HTTP.Client) :
  exists l, snd (HTTP._simple_request base env rp w) = mk_world (self w) (log w ++ l)
            /\ (l = [] \/ exists c, l = [Ev_request c]).
Proof.
  rewrite simple_request_eq. destruct (planned_call base rp _) as [c |]; simpl.
  - exists [Ev_request c]. eauto.
  - exists []. rewrite app_nil_r, world_eta. auto.
Qed.

(** Only errors of the taxonomy leave [_simple_request]; nothing of the
    transport's own leaks. *)
Lemma simple_request_typed (rp : HTTP.request_params) (w : world HTTP.Client) (ex : exn) :
  fst (HTTP._simple_request base env rp w) = Raise ex -> typed_error ex = true.
Proof.
  rewrite simple_request_eq. destruct (planned_call base rp _) as [c |]; simpl.
  - unfold answer. destruct (server env (log w) c) as [| cause | r].
    + now intros [= <-].
    + now intros [= <-].
    + destruct (Z.leb 200 (status_code r) && Z.ltb (status_code r) 300).
      * destruct (_ && _); [now intros [= <-] | discriminate].
      * now intros [= <-].
  - now intros [= <-].
Qed.

Lemma answer_client_error (b : bool) (rp : HTTP.request_params) (t : transport_result)
    (msg : string) :
  answer b rp t = Raise (HTTPClientError msg) ->
  exists r, t = Http_response r
            /\ (Z.leb 200 (status_code r) && Z.ltb (status_code r) 300) = false
            /\ msg = str_of_Z (status_code r) ++ ": " ++ detail r.
Proof.
  destruct t as [| cause | r]; simpl; try discriminate.
  destruct (Z.leb 200 (status_code r) && Z.ltb (status_code r) 300) eqn:H2xx.
  - destruct (b && Validator.failed (body r)); discriminate.
  - intros [= <-]. exists r. auto.
Qed.

(** [HTTPClientError] comes from the transport only: the attempt that raises
    it has made its call. *)
Lemma simple_request_client_error (rp : HTTP.request_params) (w : world HTTP.Client)
    (msg : string) :
  fst (HTTP._simple_request base env rp w) = Raise (HTTPClientError msg) ->
  exists c, planned_call base rp (HTTP._auth (self w)) = Some c
            /\ snd (HTTP._simple_request base env rp w)
               = mk_world (self w) (log w ++ [Ev_request c]).
Proof.
  rewrite simple_request_eq. destruct (planned_call base rp _) as [c |]; simpl.
  - eauto.
  - discriminate.
Qed.

Lemma refresh_wanted_iff (auto : bool) (ex : exn) (c : HTTP.Client) :
  HTTP.refresh_wanted auto ex c = true <->
  auto = true
  /\ contains "401: Access token has expired" (str_exn ex) = true
  /\ HTTP.auth_method c = TOKEN
  /\ exists t, HTTP.auth_key_1 c = Some t.
Proof.
  unfold HTTP.refresh_wanted. rewrite !andb_true_iff. split.
  - intros [[[Ha Hc] Hm] Hk]. repeat split; try assumption.
    + now destruct (HTTP.auth_method c).
    + destruct (HTTP.auth_key_1 c) as [t |]; [eauto | discriminate].
  - intros (Ha & Hc & Hm & t & Hk). rewrite Hm, Hk. auto.
Qed.

(** When the local [refresh] is set. *)
Lemma takes_refresh_iff (rp : HTTP.request_params) (auto : bool) (w : world HTTP.Client) :
  takes_refresh base env rp auto w = true <->
  exists msg,
    fst (HTTP._simple_request base env rp w) = Raise (HTTPClientError msg)
    /\ auto = true
    /\ contains "401: Access token has expired" msg = true
    /\ HTTP.auth_method (self w) = TOKEN
    /\ exists t, HTTP.auth_key_1 (self w) = Some t.
Proof.
  unfold takes_refresh, HTTP.send_request_attempt.
  pose proof (simple_request_self rp w) as Hself.
  destruct (HTTP._simple_request base env rp w) as [[response | ex] w1]; simpl in *.
  - split; [discriminate | intros (msg & [=] & _)].
  - rewrite Hself.
    destruct (is_HTTPClientError ex) eqn:Hex.
    + destruct ex; try discriminate.
      destruct (HTTP.refresh_wanted auto (HTTPClientError msg) (self w)) eqn:Hw.
      * apply refresh_wanted_iff in Hw. split; [intros _; eauto |reflexivity].
      * split; [discriminate |].
        intros (msg' & [= <-] & H).
        apply (proj2 (refresh_wanted_iff auto (HTTPClientError msg) (self w))) in H.
        congruence.
    + split; [discriminate |].
      intros (msg & [= ->] & _). discriminate.
Qed.

(** Without the refresh, [send_request] is its first attempt. *)
Lemma send_request_body_plain (refresh : M (world HTTP.Client) value)
    (rp : HTTP.request_params) (auto : bool) (w : world HTTP.Client) :
  takes_refresh base env rp auto w = false ->
  HTTP.send_request_body base env refresh rp auto w = HTTP._simple_request base env rp w.
Proof.
  unfold takes_refresh, HTTP.send_request_body, HTTP.send_request_attempt, bind.
  destruct (HTTP._simple_request base env rp w) as [[response | ex] w1]; simpl.
  - reflexivity.
  - destruct (is_HTTPClientError ex); [| reflexivity].
    destruct (HTTP.refresh_wanted auto ex (self w1)); [discriminate | reflexivity].
Qed.

(** With the refresh, it is the first attempt, one run of the refresh whose
    error is printed and dropped, and one more attempt. *)
Lemma send_request_body_retry (refresh : M (world HTTP.Client) value)
    (rp : HTTP.request_params) (auto : bool) (w : world HTTP.Client) :
  takes_refresh base env rp auto w = true ->
  HTTP.send_request_body base env refresh rp auto w =
  HTTP._simple_request base env rp
    (snd (try_except (run refresh then ret tt)
            (fun ex => print ("Failed to refresh session: " ++ str_exn ex))
            (snd (HTTP._simple_request base env rp w)))).
Proof.
  unfold takes_refresh, HTTP.send_request_body, HTTP.send_request_attempt.
  unfold bind at 1.
  destruct (HTTP._simple_request base env rp w) as [[response | ex] w1]; simpl.
  - discriminate.
  - destruct (is_HTTPClientError ex); [| discriminate].
    destruct (HTTP.refresh_wanted auto ex (self w1)); [| discriminate].
    intros _. unfold bind at 1.
    destruct (try_except _ _ w1) as [[[] | ex'] w2] eqn:Htry; simpl; [reflexivity |].
    exfalso. revert Htry. unfold try_except, bind, print, emit, modify.
    destruct (refresh w1) as [[v | ex''] w3]; discriminate.
Qed.

Lemma takes_refresh_no_auto (rp : HTTP.request_params) (w : world HTTP.Client) :
  takes_refresh base env rp false w = false.
Proof.
  destruct (takes_refresh base env rp false w) eqn:H; [| reflexivity].
  apply takes_refresh_iff in H. destruct H as (msg & _ & [=] & _).
Qed.

(** With [auto_refresh_session=False], [send_request] is a single attempt,
    whatever [session_refresh] would do. *)
Lemma send_request_no_auto (rp : HTTP.request_params) (w : world HTTP.Client) :
  HTTP.send_request base env rp false w = HTTP._simple_request base env rp w.
Proof. apply send_request_body_plain, takes_refresh_no_auto. Qed.

End Attempt.

(** ** The refresh and the retry *)

Section Retry.

Variable base : HTTP.comm_base.
Variable env : environment.

Lemma requests_app (l1 l2 : list event) :
  requests (l1 ++ l2) = (requests l1 + requests l2)%nat.
Proof. unfold requests. now rewrite filter_app, length_app. Qed.

(** The retried call is planned from the same arguments; only headers taken
    from the stored credentials can differ. *)
Lemma planned_call_same (rp : HTTP.request_params) (a1 a2 : AuthorizationState)
    (c1 : http_call) :
  planned_call base rp a1 = Some c1 ->
  exists c2, planned_call base rp a2 = Some c2 /\ same_request rp c1 c2.
Proof.
  unfold planned_call.
  destruct (resolve base (HTTP.rp_method rp)) as [[request_method endpoint] |];
    [| discriminate].
  intros [= <-]. eexists. split; [reflexivity |].
  unfold same_request; simpl. repeat split; try reflexivity.
  intros Hh. now rewrite Hh.
Qed.

(** The knot is tied: [session_refresh] is its body run with [send_request]
    itself. *)
Lemma session_refresh_unfold (refresh_token : option string) (w : world HTTP.Client) :
  HTTP.session_refresh base env refresh_token w
  = HTTP.session_refresh_body base (HTTP.send_request base env) refresh_token w.
Proof.
  unfold HTTP.session_refresh, HTTP.session_refresh_body, HTTP.send_request, bind.
  destruct (HTTP._prepare_refresh_session refresh_token w) as [[t | ex] w0];
    [| reflexivity].
  now rewrite !(send_request_body_plain base env _ _ false w0)
    by apply takes_refresh_no_auto.
Qed.

(** One call of [session_refresh] makes at most one transport call. *)
Lemma session_refresh_log (refresh_token : option string) (w : world HTTP.Client) :
  exists c l,
    snd (HTTP.session_refresh base env refresh_token w) = mk_world c (log w ++ l)
    /\ (l = [] \/ exists call, l = [Ev_request call]).
Proof.
  unfold HTTP.session_refresh, HTTP.session_refresh_body.
  unfold bind at 1.
  destruct (HTTP._prepare_refresh_session refresh_token w) as [[t | ex] w0] eqn:Hprep.
  - assert (w0 = w) as ->.
    { revert Hprep. unfold HTTP._prepare_refresh_session.
      destruct refresh_token; [congruence |].
      destruct (HTTP.auth_key_1 (self w)); congruence. }
    unfold bind at 1.
    rewrite (send_request_body_plain base env _ _ false w)
      by apply takes_refresh_no_auto.
    match goal with |- context [HTTP._simple_request base env ?rp w] =>
      destruct (simple_request_log base env rp w) as (l & Hl & Hcase);
      destruct (HTTP._simple_request base env rp w) as [[response | ex] w1]
    end; simpl in Hl; subst w1.
    + unfold bind, HTTP.process_login_response; simpl.
      destruct (HTTP._process_login_response base response _) as [[v | ex] a]; simpl;
        eauto.
    + simpl. eauto.
  - assert (w0 = w) as ->.
    { revert Hprep. unfold HTTP._prepare_refresh_session.
      destruct refresh_token; [congruence |].
      destruct (HTTP.auth_key_1 (self w)); congruence. }
    exists (self w), []. simpl. rewrite app_nil_r, world_eta. auto.
Qed.

(** The refresh step never raises; it adds at most one transport call and, when
    the refresh failed, one line of console output. *)
Lemma refresh_step_log (w : world HTTP.Client) :
  exists c l,
    refresh_step base env w = (Ret tt, mk_world c (log w ++ l))
    /\ (requests l <= 1)%nat.
Proof.
  unfold refresh_step, try_except, bind.
  destruct (session_refresh_log None w) as (c & l & Hl & Hcase).
  destruct (HTTP.session_refresh base env None w) as [[v | ex] w1]; simpl in Hl; subst w1.
  - exists c, l. split; [reflexivity |].
    destruct Hcase as [-> | [call ->]]; cbv; lia.
  - exists c, (l ++ [Ev_print ("Failed to refresh session: " ++ str_exn ex)])%list.
    unfold print, emit, modify; simpl. rewrite <- app_assoc. split; [reflexivity |].
    rewrite requests_app. change (requests [Ev_print _]) with 0%nat.
    destruct Hcase as [-> | [call ->]]; cbv; lia.
Qed.

(** On the refresh path [send_request] is the first attempt, the refresh step
    and one more attempt; the log gains the first call, what the refresh step
    adds, and the retried call. *)
Lemma send_request_retry_log (rp : HTTP.request_params) (w : world HTTP.Client) :
  takes_refresh base env rp true w = true ->
  HTTP.send_request base env rp true w
  = HTTP._simple_request base env rp
      (snd (refresh_step base env (snd (HTTP._simple_request base env rp w))))
  /\ exists (c1 c2 : http_call) (lr : list event),
       new_events w (snd (HTTP.send_request base env rp true w))
       = ([Ev_request c1] ++ lr ++ [Ev_request c2])%list.
Proof.
  intros Htakes.
  assert (Hsend : HTTP.send_request base env rp true w
                  = HTTP._simple_request base env rp
                      (snd (refresh_step base env
                              (snd (HTTP._simple_request base env rp w))))).
  { unfold HTTP.send_request.
    now rewrite (send_request_body_retry base env _ rp true w Htakes). }
  split; [exact Hsend |].
  apply takes_refresh_iff in Htakes. destruct Htakes as (msg & Hfirst & _).
  destruct (simple_request_client_error base env rp w msg Hfirst) as (c1 & Hplan & Hw1).
  destruct (refresh_step_log (mk_world (self w) (log w ++ [Ev_request c1])))
    as (c & lr & Hstep & _).
  destruct (planned_call_same rp (HTTP._auth (self w)) (HTTP._auth c) c1 Hplan)
    as (c2 & Hplan2 & _).
  exists c1, c2, lr.
  rewrite Hsend, Hw1, Hstep. simpl. rewrite simple_request_eq. simpl. rewrite Hplan2.
  unfold new_events; simpl. rewrite <- !app_assoc. now rewrite drop_app_length.
Qed.

(** C1.  With [auto_refresh_session] enabled, [send_request] goes through the
    refresh and the retry if and only if the first attempt raised
    [HTTPClientError] with a message containing
    [401: Access token has expired], the authorization method is [TOKEN] and
    a refresh token is stored.  Under these conditions [send_request] is the
    first attempt, the refresh step and a second attempt, and its log gains at
    least two transport calls.  When one of them fails, [send_request] is its
    first attempt alone: the outcome of that attempt (its error, if it
    raised) is the outcome of the call, the client object is untouched, and
    the log gained at most the one transport call of that attempt (no
    refresh, no second call, no console output).  The same conditions decide
    the local [refresh] of the source. *)
Theorem refresh_taken_iff (rp : HTTP.request_params) (w : world HTTP.Client) :
  let expired :=
    exists msg,
      fst (HTTP._simple_request base env rp w) = Raise (HTTPClientError msg)
      /\ contains "401: Access token has expired" msg = true
      /\ HTTP.auth_method (self w) = TOKEN
      /\ exists t, HTTP.auth_key_1 (self w) = Some t in
  (expired <->
   (2 <= requests (new_events w (snd (HTTP.send_request base env rp true w))))%nat)
  /\ (expired ->
      HTTP.send_request base env rp true w
      = HTTP._simple_request base env rp
          (snd (refresh_step base env (snd (HTTP._simple_request base env rp w)))))
  /\ (~ expired ->
      HTTP.send_request base env rp true w = HTTP._simple_request base env rp w
      /\ self (snd (HTTP.send_request base env rp true w)) = self w
      /\ (new_events w (snd (HTTP.send_request base env rp true w)) = []
          \/ exists c,
               new_events w (snd (HTTP.send_request base env rp true w)) = [Ev_request c]))
  /\ (takes_refresh base env rp true w = true <-> expired)
  /\ (takes_refresh base env rp true w = false ->
      HTTP.send_request base env rp true w = HTTP._simple_request base env rp w
      /\ self (snd (HTTP.send_request base env rp true w)) = self w
      /\ (new_events w (snd (HTTP.send_request base env rp true w)) = []
          \/ exists c,
               new_events w (snd (HTTP.send_request base env rp true w)) = [Ev_request c])).
Proof.
  intros expired.
  assert (Hflag : takes_refresh base env rp true w = true <-> expired).
  { unfold expired. rewrite takes_refresh_iff. split.
    - intros (msg & H1 & _ & H). eauto.
    - intros (msg & H1 & H). exists msg. auto. }
  assert (Hplain : takes_refresh base env rp true w = false ->
            HTTP.send_request base env rp true w = HTTP._simple_request base env rp w
            /\ self (snd (HTTP.send_request base env rp true w)) = self w
            /\ (new_events w (snd (HTTP.send_request base env rp true w)) = []
                \/ exists c,
                     new_events w (snd (HTTP.send_request base env rp true w))
                     = [Ev_request c])).
  { intros Hno. unfold HTTP.send_request.
    rewrite (send_request_body_plain base env _ rp true w Hno).
    split; [reflexivity |]. split; [apply simple_request_self |].
    destruct (simple_request_log base env rp w) as (l & -> & Hcase).
    rewrite new_events_app. exact Hcase. }
  assert (Hnot : ~ expired -> takes_refresh base env rp true w = false).
  { intros Hne. destruct (takes_refresh base env rp true w) eqn:H; [| reflexivity].
    exfalso. apply Hne, Hflag. reflexivity. }
  repeat apply conj.
  - intros Hex. apply Hflag in Hex.
    destruct (send_request_retry_log rp w Hex) as (_ & c1 & c2 & lr & ->).
    rewrite !requests_app.
    change (requests [Ev_request c1]) with 1%nat.
    change (requests [Ev_request c2]) with 1%nat. lia.
  - intros Hcalls. destruct (takes_refresh base env rp true w) eqn:H.
    + now apply Hflag.
    + exfalso. destruct (Hplain eq_refl) as (_ & _ & [Hl | [c Hl]]);
        rewrite Hl in Hcalls; cbv in Hcalls; lia.
  - intros Hex. apply Hflag in Hex. apply (send_request_retry_log rp w Hex).
  - intros Hne. apply Hplain, Hnot, Hne.
  - apply Hflag.
  - apply Hflag.
  - exact Hplain.
Qed.

(** C2.  When the refresh-and-retry path is taken, the first attempt has made
    one transport call [c1]; the refresh step is run once and adds at most one
    transport call of its own; then [_simple_request] is run once more with
    the very same arguments, makes exactly one transport call [c2] that agrees
    with [c1] on verb, endpoint, body, query parameters, data and timeout (and
    on the headers when the caller passed some), and its outcome, value or
    error, is the outcome of [send_request]. *)
Theorem single_refresh_single_retry (rp : HTTP.request_params) (w : world HTTP.Client) :
  takes_refresh base env rp true w = true ->
  exists (c1 c2 : http_call) (lr : list event),
    let w1 := mk_world (self w) (log w ++ [Ev_request c1]) in
    let w2 := snd (refresh_step base env w1) in
    snd (HTTP._simple_request base env rp w) = w1
    /\ log w2 = (log w1 ++ lr)%list
    /\ (requests lr <= 1)%nat
    /\ HTTP.send_request base env rp true w = HTTP._simple_request base env rp w2
    /\ snd (HTTP._simple_request base env rp w2)
       = mk_world (self w2) (log w2 ++ [Ev_request c2])
    /\ same_request rp c1 c2
    /\ new_events w (snd (HTTP.send_request base env rp true w))
       = ([Ev_request c1] ++ lr ++ [Ev_request c2])%list.
Proof.
  intros Htakes.
  pose proof Htakes as Hcond. apply takes_refresh_iff in Hcond.
  destruct Hcond as (msg & Hfirst & _).
  destruct (simple_request_client_error base env rp w msg Hfirst) as (c1 & Hplan & Hw1).
  destruct (refresh_step_log (mk_world (self w) (log w ++ [Ev_request c1])))
    as (c & lr & Hstep & Hreq).
  destruct (planned_call_same rp (HTTP._auth (self w)) (HTTP._auth c) c1 Hplan)
    as (c2 & Hplan2 & Hsame).
  exists c1, c2, lr. cbv zeta. rewrite Hstep. simpl.
  assert (Hretry : HTTP._simple_request base env rp
                     (mk_world c ((log w ++ [Ev_request c1]) ++ lr))
                   = (answer (HTTP._request_fail_exceptions c) rp
                        (server env ((log w ++ [Ev_request c1]) ++ lr) c2),
                      mk_world c (((log w ++ [Ev_request c1]) ++ lr) ++ [Ev_request c2]))).
  { rewrite simple_request_eq. simpl. now rewrite Hplan2. }
  assert (Hsend : HTTP.send_request base env rp true w
                  = HTTP._simple_request base env rp
                      (mk_world c ((log w ++ [Ev_request c1]) ++ lr))).
  { unfold HTTP.send_request. rewrite (send_request_body_retry base env _ rp true w Htakes).
    rewrite Hw1. fold (refresh_step base env). now rewrite Hstep. }
  repeat split; try assumption; try apply Hsame.
  - now rewrite Hretry.
  - rewrite Hsend, Hretry. simpl.
    unfold new_events; simpl. rewrite <- !app_assoc. now rewrite drop_app_length.
Qed.

(** C5.  On the refresh-and-retry path, whatever the refresh does and whatever
    error [ex] it raises, [send_request] does not raise [ex] on its account:
    the error is printed, and the call ends as the retried [_simple_request]
    ends, run with the credentials the client holds at that point; that retry
    makes its transport call. *)
Theorem refresh_error_is_swallowed (refresh : M (world HTTP.Client) value)
    (rp : HTTP.request_params) (w : world HTTP.Client) (ex : exn)
    (wr : world HTTP.Client) :
  takes_refresh base env rp true w = true ->
  refresh (snd (HTTP._simple_request base env rp w)) = (Raise ex, wr) ->
  let w2 := mk_world (self wr)
              (log wr ++ [Ev_print ("Failed to refresh session: " ++ str_exn ex)]) in
  HTTP.send_request_body base env refresh rp true w = HTTP._simple_request base env rp w2
  /\ exists c2,
       planned_call base rp (HTTP._auth (self wr)) = Some c2
       /\ HTTP.send_request_body base env refresh rp true w
          = (answer (HTTP._request_fail_exceptions (self wr)) rp (server env (log w2) c2),
             mk_world (self wr) (log w2 ++ [Ev_request c2])).
Proof.
  intros Htakes Hrefresh w2.
  assert (Hsend : HTTP.send_request_body base env refresh rp true w
                  = HTTP._simple_request base env rp w2).
  { rewrite (send_request_body_retry base env refresh rp true w Htakes).
    unfold try_except, bind. now rewrite Hrefresh. }
  split; [exact Hsend |].
  apply takes_refresh_iff in Htakes. destruct Htakes as (msg & Hfirst & _).
  destruct (simple_request_client_error base env rp w msg Hfirst) as (c1 & Hplan & _).
  destruct (planned_call_same rp (HTTP._auth (self w)) (HTTP._auth (self wr)) c1 Hplan)
    as (c2 & Hplan2 & _).
  exists c2. split; [exact Hplan2 |].
  rewrite Hsend, simple_request_eq. subst w2. simpl. now rewrite Hplan2.
Qed.

End Retry.

(** ** Unknown methods *)

(** C8.  For a bare method name that is not in the REST table, [send_request]
    raises [RequestParameterError] whose message contains
    [Unknown method '<name>'], and the world is left exactly as it was: the
    log has gained no transport call. *)
Theorem unknown_method_raises (base : HTTP.comm_base) (env : environment)
    (name : string) (params url_params headers data : value) (timeout : option Q)
    (auto_refresh_session : bool) (w : world HTTP.Client) :
  HTTP._rest_api_method_map base !! name = None ->
  let out :=
    HTTP.send_request base env
      (HTTP.mk_request_params (MName name) params url_params headers data timeout)
      auto_refresh_session w in
  (exists msg, fst out = Raise (RequestParameterError msg)
               /\ contains ("Unknown method '" ++ name ++ "'") msg = true)
  /\ snd out = w
  /\ requests (new_events w (snd out)) = 0%nat.
Proof.
  intros Hname.
  set (rp := HTTP.mk_request_params (MName name) params url_params headers data timeout).
  assert (Hfirst : HTTP._simple_request base env rp w
                   = (Raise (RequestParameterError ("Unknown method '" ++ name ++ "'")), w)).
  { rewrite simple_request_eq. unfold planned_call, resolve; simpl. now rewrite Hname. }
  assert (Hno : takes_refresh base env rp auto_refresh_session w = false).
  { destruct (takes_refresh base env rp auto_refresh_session w) eqn:H; [| reflexivity].
    apply takes_refresh_iff in H. destruct H as (msg & H & _).
    rewrite Hfirst in H. discriminate. }
  cbv zeta. unfold HTTP.send_request.
  rewrite (send_request_body_plain base env _ rp _ w Hno), Hfirst. simpl.
  split; [| split].
  - eexists. split; [reflexivity | apply contains_refl].
  - reflexivity.
  - unfold new_events. now rewrite drop_all.
Qed.

Lemma unknown_method_raises_witness :
  Scenario.table !! "unknown_method" = None
  /\ let out :=
       HTTP.send_request Scenario.base (Scenario.env_with Scenario.server_down)
         (HTTP.mk_request_params (MName "unknown_method") VNone VNone VNone VNone None)
         true (Scenario.start Auth_NONE) in
     (exists msg, fst out = Raise (RequestParameterError msg)
                  /\ contains "Unknown method 'unknown_method'" msg = true)
     /\ snd out = Scenario.start Auth_NONE
     /\ requests (new_events (Scenario.start Auth_NONE) (snd out)) = 0%nat.
Proof.
  split; [vm_compute; reflexivity |].
  apply (unknown_method_raises Scenario.base (Scenario.env_with Scenario.server_down)
           "unknown_method" VNone VNone VNone VNone None true (Scenario.start Auth_NONE)).
  vm_compute; reflexivity.
Defined.

(** ** The retry on concrete runs *)

(** An expired token pair is refreshed and the call retried: three transport
    calls, the second to the refresh endpoint, and the new pair is stored. *)
Example expired_token_is_refreshed :
  let out :=
    HTTP.send_request Scenario.base (Scenario.env_with Scenario.server_expiring)
      (HTTP.only_method (MName "queue_item_add")) true
      (Scenario.start Scenario.token_pair) in
  fst out = Ret Scenario.ok_body
  /\ map (fun e => match e with Ev_request c => call_endpoint c | _ => "" end)
         (log (snd out))
     = ["/api/queue/item/add"; "/api/auth/session/refresh"; "/api/queue/item/add"]
  /\ HTTP._auth (self (snd out)) = Auth_TOKEN (Some "new") (Some "next").
Proof. vm_compute. repeat split; reflexivity. Qed.

(** The same expired-token answer under an API key is not retried. *)
Example expired_answer_under_api_key :
  let out :=
    HTTP.send_request Scenario.base (Scenario.env_with Scenario.server_expired)
      (HTTP.only_method (MName "queue_item_add")) true
      (Scenario.start (Auth_API_KEY "secret")) in
  takes_refresh Scenario.base (Scenario.env_with Scenario.server_expired)
    (HTTP.only_method (MName "queue_item_add")) true
    (Scenario.start (Auth_API_KEY "secret")) = false
  /\ fst out = Raise (HTTPClientError "401: Access token has expired")
  /\ requests (log (snd out)) = 1%nat.
Proof. vm_compute. repeat split; reflexivity. Qed.

Lemma single_refresh_single_retry_witness :
  let base := Scenario.base in
  let env := Scenario.env_with Scenario.server_expired in
  let rp := HTTP.only_method (MName "queue_item_add") in
  let w := Scenario.start Scenario.token_pair in
  takes_refresh base env rp true w = true
  /\ exists (c1 c2 : http_call) (lr : list event),
       let w1 := mk_world (self w) (log w ++ [Ev_request c1]) in
       let w2 := snd (refresh_step base env w1) in
       snd (HTTP._simple_request base env rp w) = w1
       /\ log w2 = (log w1 ++ lr)%list
       /\ (requests lr <= 1)%nat
       /\ HTTP.send_request base env rp true w = HTTP._simple_request base env rp w2
       /\ snd (HTTP._simple_request base env rp w2)
          = mk_world (self w2) (log w2 ++ [Ev_request c2])
       /\ same_request rp c1 c2
       /\ new_events w (snd (HTTP.send_request base env rp true w))
          = ([Ev_request c1] ++ lr ++ [Ev_request c2])%list.
Proof.
  intros base env rp w. split.
  - vm_compute; reflexivity.
  - apply (single_refresh_single_retry base env rp w). vm_compute; reflexivity.
Defined.

(** On that run the retried call meets the expired-token answer again, and the
    error goes to the caller after three transport calls in all. *)
Example second_expiry_is_final :
  let out :=
    HTTP.send_request Scenario.base (Scenario.env_with Scenario.server_expired)
      (HTTP.only_method (MName "queue_item_add")) true
      (Scenario.start Scenario.token_pair) in
  fst out = Raise (HTTPClientError "401: Access token has expired")
  /\ requests (log (snd out)) = 3%nat.
Proof. vm_compute. split; reflexivity. Qed.

Lemma refresh_error_is_swallowed_witness :
  let base := Scenario.base in
  let env := Scenario.env_with Scenario.server_expired in
  let rp := HTTP.only_method (MName "queue_item_add") in
  let w := Scenario.start Scenario.token_pair in
  let refresh := HTTP.session_refresh base env None in
  let ex := HTTPClientError "401: Access token has expired" in
  let wr := snd (refresh (snd (HTTP._simple_request base env rp w))) in
  takes_refresh base env rp true w = true
  /\ refresh (snd (HTTP._simple_request base env rp w)) = (Raise ex, wr)
  /\ let w2 := mk_world (self wr)
                 (log wr ++ [Ev_print ("Failed to refresh session: " ++ str_exn ex)]) in
     HTTP.send_request_body base env refresh rp true w = HTTP._simple_request base env rp w2
     /\ exists c2,
          planned_call base rp (HTTP._auth (self wr)) = Some c2
          /\ HTTP.send_request_body base env refresh rp true w
             = (answer (HTTP._request_fail_exceptions (self wr)) rp
                  (server env (log w2) c2),
                mk_world (self wr) (log w2 ++ [Ev_request c2])).
Proof.
  intros base env rp w refresh ex wr.
  assert (H1 : takes_refresh base env rp true w = true) by (vm_compute; reflexivity).
  assert (H2 : refresh (snd (HTTP._simple_request base env rp w)) = (Raise ex, wr))
    by (vm_compute; reflexivity).
  split; [exact H1 |]. split; [exact H2 |].
  exact (refresh_error_is_swallowed base env refresh rp w ex wr H1 H2).
Defined.

(** ** Logout *)

Section Logout.

Variable base : HTTP.comm_base.
Variable env : environment.

(** Whatever path [send_request] takes, the first effect is the planned call
    of its first attempt. *)
Lemma send_request_first_call (rp : HTTP.request_params) (auto : bool)
    (w : world HTTP.Client) (c : http_call) :
  planned_call base rp (HTTP._auth (self w)) = Some c ->
  exists l, new_events w (snd (HTTP.send_request base env rp auto w)) = Ev_request c :: l.
Proof.
  intros Hplan.
  assert (Hw1 : snd (HTTP._simple_request base env rp w)
                = mk_world (self w) (log w ++ [Ev_request c])).
  { rewrite simple_request_eq, Hplan. reflexivity. }
  unfold HTTP.send_request.
  destruct (takes_refresh base env rp auto w) eqn:Htakes.
  - rewrite (send_request_body_retry base env _ rp auto w Htakes), Hw1.
    fold (refresh_step base env).
    destruct (refresh_step_log base env (mk_world (self w) (log w ++ [Ev_request c])))
      as (c' & l1 & -> & _). simpl.
    destruct (simple_request_log base env rp
                (mk_world c' ((log w ++ [Ev_request c]) ++ l1))) as (l2 & -> & _).
    simpl. exists (l1 ++ l2)%list.
    unfold new_events; simpl. rewrite <- !app_assoc. now rewrite drop_app_length.
  - rewrite (send_request_body_plain base env _ rp auto w Htakes), Hw1.
    exists []. apply new_events_app.
Qed.

(** C6, as the code has it.  [logout] first runs
    [send_request(method="logout")]: when the method is in the table, the
    logout call is the first transport call made.  When that request returns
    a response, the stored credentials are cleared to NONE and the response
    is returned; when it raises, [logout] raises the same error and leaves
    the client as the request left it, credentials included. *)
Theorem logout_clears_when_request_returns (w : world HTTP.Client) :
  match HTTP.send_request base env (HTTP.only_method (MName "logout")) true w with
  | (Ret response, w') =>
      HTTP.logout base env w
      = (Ret response, mk_world (HTTP.with_auth Auth_NONE (self w')) (log w'))
  | (Raise ex, w') => HTTP.logout base env w = (Raise ex, w')
  end
  /\ (forall c,
        planned_call base (HTTP.only_method (MName "logout")) (HTTP._auth (self w)) = Some c ->
        exists l, new_events w (snd (HTTP.logout base env w)) = Ev_request c :: l).
Proof.
  assert (Heq : HTTP.logout base env w =
                match HTTP.send_request base env (HTTP.only_method (MName "logout")) true w with
                | (Ret response, w') =>
                    (Ret response, mk_world (HTTP.with_auth Auth_NONE (self w')) (log w'))
                | (Raise ex, w') => (Raise ex, w')
                end).
  { unfold HTTP.logout, bind.
    destruct (HTTP.send_request base env _ true w) as [[response | ex] w']; reflexivity. }
  split.
  - rewrite Heq.
    destruct (HTTP.send_request base env _ true w) as [[response | ex] w']; reflexivity.
  - intros c Hplan.
    destruct (send_request_first_call (HTTP.only_method (MName "logout")) true w c Hplan)
      as (l & Hl).
    exists l. rewrite Heq.
    destruct (HTTP.send_request base env _ true w) as [[response | ex] w']; exact Hl.
Qed.

End Logout.

(** C6, as stated, fails.  With no server listening, [logout] raises
    [HTTPRequestError] and the API key stays in place; with a server that
    rejects the request, it raises [RequestFailedError] and the token pair
    stays in place. *)
Lemma logout_raising_keeps_credentials :
  (let out := HTTP.logout Scenario.base (Scenario.env_with Scenario.server_down)
                (Scenario.start (Auth_API_KEY "secret")) in
   fst out = Raise (HTTPRequestError "HTTP request error: [Errno 111] Connection refused")
   /\ HTTP._auth (self (snd out)) = Auth_API_KEY "secret"
   /\ HTTP._auth (self (snd out)) <> Auth_NONE)
  /\ (let out := HTTP.logout Scenario.base (Scenario.env_with Scenario.server_rejecting)
                   (Scenario.start Scenario.token_pair) in
      fst out = Raise (RequestFailedError "Request failed: not allowed"
                         (mk_request (MName "logout") VNone) Scenario.rejected_body)
      /\ HTTP._auth (self (snd out)) = Scenario.token_pair
      /\ HTTP._auth (self (snd out)) <> Auth_NONE).
Proof. vm_compute. repeat split; (reflexivity || discriminate). Qed.

(** When the request returns, the credentials are gone: after a success, and
    after a structured failure that is returned because
    [request_fail_exceptions] is disabled. *)
Example logout_returning_clears :
  (let out := HTTP.logout Scenario.base (Scenario.env_with Scenario.server_expiring)
                (Scenario.start (Auth_API_KEY "secret")) in
   fst out = Ret Scenario.ok_body /\ HTTP._auth (self (snd out)) = Auth_NONE)
  /\ (let out := HTTP.logout Scenario.base (Scenario.env_with Scenario.server_rejecting)
                   (Scenario.lenient_start Scenario.token_pair) in
      fst out = Ret Scenario.rejected_body /\ HTTP._auth (self (snd out)) = Auth_NONE).
Proof. vm_compute. repeat apply conj; reflexivity. Qed.

(** ** Which authentication calls can retry *)

Section AuthCalls.

Variable base : HTTP.comm_base.
Variable env : environment.

#[local] Abbreviation W := (world HTTP.Client).









End AuthCalls.



(** ** Teardown *)

Section Teardown.

Variable env : environment.

(** Whatever the collaborators do, [close] has set the flag before it stops
    the monitor, asks for a wait of ten poll periods, and releases the handle
    only after the monitor stop has returned. *)
Lemma http_close_order (w : world HTTP.Client) :
  HTTP._is_closing (self (snd (HTTP.close env w))) = true
  /\ exists l,
       new_events w (snd (HTTP.close env w))
       = Ev_disable_wait (HTTP._console_monitor_poll_period (self w) * 10) true :: l
       /\ (l = [Ev_client_close] /\ monitor_disable_wait env (log w)
                                      (HTTP._console_monitor_poll_period (self w) * 10) = None
           \/ l = [] /\ monitor_disable_wait env (log w)
                          (HTTP._console_monitor_poll_period (self w) * 10) <> None).
Proof.
  unfold HTTP.close, bind, modify, HTTP.reading, disable_wait, client_close; simpl.
  destruct (monitor_disable_wait env (log w) _) as [ex |] eqn:Hmon; simpl.
  - split; [reflexivity |]. exists []. split; [apply new_events_app | right; easy].
  - destruct (handle_close env _); simpl; (split; [reflexivity |]);
      exists [Ev_client_close]; rewrite <- app_assoc;
      (split; [apply new_events_app | left; easy]).
Qed.

Lemma zmq_close_order (w : world ZMQ.Client) :
  ZMQ._is_closing (self (snd (ZMQ.close env w))) = true
  /\ exists l,
       new_events w (snd (ZMQ.close env w))
       = Ev_disable_wait (ZMQ._console_monitor_poll_timeout (self w) * 10) true :: l
       /\ (l = [Ev_client_close] /\ monitor_disable_wait env (log w)
                                      (ZMQ._console_monitor_poll_timeout (self w) * 10) = None
           \/ l = [] /\ monitor_disable_wait env (log w)
                          (ZMQ._console_monitor_poll_timeout (self w) * 10) <> None).
Proof.
  unfold ZMQ.close, bind, modify, disable_wait, client_close; simpl.
  destruct (monitor_disable_wait env (log w) _) as [ex |] eqn:Hmon; simpl.
  - split; [reflexivity |]. exists []. split; [apply new_events_app | right; easy].
  - destruct (handle_close env _); simpl; (split; [reflexivity |]);
      exists [Ev_client_close]; rewrite <- app_assoc;
      (split; [apply new_events_app | left; easy]).
Qed.

Hypothesis monitor_returns :
  forall history timeout, monitor_disable_wait env history timeout = None.
Hypothesis handle_returns : forall history, handle_close env history = None.

Lemma http_close_eq (w : world HTTP.Client) :
  HTTP.close env w
  = (Ret tt,
     mk_world (HTTP.with_is_closing true (self w))
       (log w ++ [Ev_disable_wait (HTTP._console_monitor_poll_period (self w) * 10) true;
                  Ev_client_close])).
Proof.
  unfold HTTP.close, bind, modify, HTTP.reading, disable_wait, client_close; simpl.
  rewrite monitor_returns; simpl. rewrite handle_returns. now rewrite <- app_assoc.
Qed.

Lemma zmq_close_eq (w : world ZMQ.Client) :
  ZMQ.close env w
  = (Ret tt,
     mk_world (ZMQ.with_is_closing true (self w))
       (log w ++ [Ev_disable_wait (ZMQ._console_monitor_poll_timeout (self w) * 10) true;
                  Ev_client_close])).
Proof.
  unfold ZMQ.close, bind, modify, disable_wait, client_close; simpl.
  rewrite monitor_returns; simpl. rewrite handle_returns. now rewrite <- app_assoc.
Qed.

Lemma http_close_times (n : nat) (w : world HTTP.Client) :
  fst (times n (HTTP.close env) w) = Ret tt
  /\ log (snd (times n (HTTP.close env) w))
     = (log w ++ mjoin (replicate n
         [Ev_disable_wait (HTTP._console_monitor_poll_period (self w) * 10) true;
          Ev_client_close]))%list.
Proof.
  revert w. induction n as [| n IH]; intros w; simpl.
  - now rewrite app_nil_r.
  - unfold bind. rewrite http_close_eq.
    destruct (IH (mk_world (HTTP.with_is_closing true (self w))
                    (log w ++ [Ev_disable_wait
                                 (HTTP._console_monitor_poll_period (self w) * 10) true;
                               Ev_client_close]))) as [Hfst Hlog].
    split; [exact Hfst |]. rewrite Hlog. simpl. now rewrite <- app_assoc.
Qed.

Lemma zmq_close_times (n : nat) (w : world ZMQ.Client) :
  fst (times n (ZMQ.close env) w) = Ret tt
  /\ log (snd (times n (ZMQ.close env) w))
     = (log w ++ mjoin (replicate n
         [Ev_disable_wait (ZMQ._console_monitor_poll_timeout (self w) * 10) true;
          Ev_client_close]))%list.
Proof.
  revert w. induction n as [| n IH]; intros w; simpl.
  - now rewrite app_nil_r.
  - unfold bind. rewrite zmq_close_eq.
    destruct (IH (mk_world (ZMQ.with_is_closing true (self w))
                    (log w ++ [Ev_disable_wait
                                 (ZMQ._console_monitor_poll_timeout (self w) * 10) true;
                               Ev_client_close]))) as [Hfst Hlog].
    split; [exact Hfst |]. rewrite Hlog. simpl. now rewrite <- app_assoc.
Qed.

End Teardown.

(** C9, as the code has it.  Given a console monitor whose [disable_wait]
    returns and a transport handle whose [close] returns, [close] of the HTTP
    and of the ZMQ client returns normally from every state, hence also when
    called again and again.  Each call sets [_is_closing], then stops the monitor with a wait
    of ten times the poll interval (the monitor sees the flag set), then
    releases the handle: the log gains these two effects in this order, and
    nothing else of the client changes. *)
Theorem close_is_safe (env : environment) :
  (forall history timeout, monitor_disable_wait env history timeout = None) ->
  (forall history, handle_close env history = None) ->
  (forall w : world HTTP.Client,
     HTTP.close env w
     = (Ret tt,
        mk_world (HTTP.with_is_closing true (self w))
          (log w ++ [Ev_disable_wait (HTTP._console_monitor_poll_period (self w) * 10) true;
                     Ev_client_close])))
  /\ (forall w : world ZMQ.Client,
        ZMQ.close env w
        = (Ret tt,
           mk_world (ZMQ.with_is_closing true (self w))
             (log w ++ [Ev_disable_wait (ZMQ._console_monitor_poll_timeout (self w) * 10) true;
                        Ev_client_close])))
  /\ (forall n (w : world HTTP.Client),
        fst (times n (HTTP.close env) w) = Ret tt
        /\ log (snd (times n (HTTP.close env) w))
           = (log w ++ mjoin (replicate n
               [Ev_disable_wait (HTTP._console_monitor_poll_period (self w) * 10) true;
                Ev_client_close]))%list)
  /\ (forall n (w : world ZMQ.Client),
        fst (times n (ZMQ.close env) w) = Ret tt
        /\ log (snd (times n (ZMQ.close env) w))
           = (log w ++ mjoin (replicate n
               [Ev_disable_wait (ZMQ._console_monitor_poll_timeout (self w) * 10) true;
                Ev_client_close]))%list).
Proof.
  intros Hmon Hhandle. repeat apply conj.
  - apply http_close_eq; assumption.
  - apply zmq_close_eq; assumption.
  - intros n w. apply http_close_times; assumption.
  - intros n w. apply zmq_close_times; assumption.
Qed.

Lemma close_is_safe_witness :
  let env := Scenario.env_with Scenario.server_down in
  (forall history timeout, monitor_disable_wait env history timeout = None)
  /\ (forall history, handle_close env history = None)
  /\ fst (times 2 (HTTP.close env) (Scenario.start (Auth_API_KEY "secret"))) = Ret tt
  /\ log (snd (times 2 (HTTP.close env) (Scenario.start (Auth_API_KEY "secret"))))
     = [Ev_disable_wait ((1 # 2) * 10) true; Ev_client_close;
        Ev_disable_wait ((1 # 2) * 10) true; Ev_client_close]
  /\ fst (times 2 (ZMQ.close env) Scenario.zmq_start) = Ret tt.
Proof.
  intros env.
  assert (Hmon : forall history timeout, monitor_disable_wait env history timeout = None)
    by reflexivity.
  assert (Hhandle : forall history, handle_close env history = None) by reflexivity.
  destruct (close_is_safe env Hmon Hhandle) as (_ & _ & Hhttp & Hzmq).
  split; [exact Hmon |]. split; [exact Hhandle |].
  destruct (Hhttp 2%nat (Scenario.start (Auth_API_KEY "secret"))) as [Hfst Hlog].
  split; [exact Hfst |]. split; [exact Hlog |].
  exact (proj1 (Hzmq 2%nat Scenario.zmq_start)).
Defined.

(** C9, as stated, fails: [close] has no handler of its own.  With a monitor
    whose stop raises, [close] of the HTTP client raises that error and the
    handle is never released; with a handle whose release raises, [close] of
    the ZMQ client raises that error.  So neither [close] returns normally
    under every collaborator. *)
Lemma close_raises_when_collaborator_raises :
  (let out := HTTP.close Faults.env_monitor_fails (Scenario.start (Auth_API_KEY "secret")) in
   fst out = Raise (HTTPRequestError "monitor")
   /\ log (snd out) = [Ev_disable_wait ((1 # 2) * 10) true])
  /\ (let out := ZMQ.close Faults.env_handle_fails Scenario.zmq_start in
      fst out = Raise (HTTPRequestError "handle")
      /\ log (snd out) = [Ev_disable_wait ((1 # 1) * 10) true; Ev_client_close])
  /\ ~ (forall env (w : world HTTP.Client), fst (HTTP.close env w) = Ret tt)
  /\ ~ (forall env (w : world ZMQ.Client), fst (ZMQ.close env w) = Ret tt).
Proof.
  repeat apply conj; try reflexivity.
  - intros H.
    specialize (H Faults.env_monitor_fails (Scenario.start (Auth_API_KEY "secret"))).
    discriminate H.
  - intros H. specialize (H Faults.env_handle_fails Scenario.zmq_start).
    discriminate H.
Qed.

(** C10.  [__del__] of either client does one thing: it sets [_is_closing].
    It returns normally, adds nothing to the log (no monitor stop, no handle
    release, no transport call), and leaves every other attribute, the
    stored credentials among them, as it was.  It does not depend on any
    collaborator. *)
Theorem del_only_sets_closing_flag (w : world HTTP.Client) (z : world ZMQ.Client) :
  (HTTP.__del__ w = (Ret tt, mk_world (HTTP.with_is_closing true (self w)) (log w))
   /\ new_events w (snd (HTTP.__del__ w)) = []
   /\ HTTP._is_closing (self (snd (HTTP.__del__ w))) = true
   /\ HTTP._auth (self (snd (HTTP.__del__ w))) = HTTP._auth (self w)
   /\ HTTP._request_fail_exceptions (self (snd (HTTP.__del__ w)))
      = HTTP._request_fail_exceptions (self w)
   /\ HTTP._console_monitor_poll_period (self (snd (HTTP.__del__ w)))
      = HTTP._console_monitor_poll_period (self w)
   /\ HTTP._timeout_login (self (snd (HTTP.__del__ w))) = HTTP._timeout_login (self w))
  /\ (ZMQ.__del__ z = (Ret tt, mk_world (ZMQ.with_is_closing true (self z)) (log z))
      /\ new_events z (snd (ZMQ.__del__ z)) = []
      /\ ZMQ._is_closing (self (snd (ZMQ.__del__ z))) = true
      /\ ZMQ._request_fail_exceptions (self (snd (ZMQ.__del__ z)))
         = ZMQ._request_fail_exceptions (self z)
      /\ ZMQ._console_monitor_poll_timeout (self (snd (ZMQ.__del__ z)))
         = ZMQ._console_monitor_poll_timeout (self z)).
Proof.
  unfold HTTP.__del__, ZMQ.__del__, modify; simpl.
  rewrite !new_events_same. repeat apply conj; reflexivity.
Qed.

(** ** The response validator *)

Section Validation.

Context {S : Type}.

Lemma py_eq_True_not_False (v : value) : py_eq_True v = true -> py_eq_False v = false.
Proof.
  destruct v as [| [b | z | t] | |]; simpl; try discriminate.
  - now intros ->.
  - intros H%Z.eqb_eq. now subst.
Qed.

(** C3.  A mapping whose [success] equals true, a mapping without [success],
    and any sequence (the empty one too) pass the validator under either
    setting of [request_fail_exceptions]: it returns, and what it returns is
    the response as given.  The ZMQ client's [send_request] then hands such a
    reply to its caller as it is. *)
Theorem successful_responses_pass (request_fail_exceptions : bool) (rq : request)
    (response : value) (s : S) :
  (exists d v, response = VDict d /\ d !! "success" = Some v /\ py_eq_True v = true)
  \/ (exists d, response = VDict d /\ d !! "success" = None)
  \/ (exists l, response = VList l) ->
  Validator._check_response request_fail_exceptions rq response s = (Ret response, s)
  /\ forall base env name params (w : world ZMQ.Client),
       zmq_server env (log w) name params = Zmq_reply response ->
       fst (ZMQ.send_request base env name params w) = Ret response.
Proof.
  intros Hpass.
  assert (Hfailed : Validator.failed response = false).
  { destruct Hpass as [(d & v & -> & Hs & Hv) | [(d & -> & Hs) | (l & ->)]]; simpl.
    - rewrite Hs. now apply py_eq_True_not_False.
    - now rewrite Hs.
    - reflexivity. }
  assert (Hcheck : forall (T : Type) (b : bool) (r : request) (t : T),
             Validator._check_response b r response t = (Ret response, t)).
  { intros T b r t. unfold Validator._check_response. rewrite Hfailed.
    now rewrite andb_false_r. }
  split; [apply Hcheck |].
  intros base env name params w Hreply.
  unfold ZMQ.send_request, ZMQ.send_message, ZMQ._check_response, try_except, bind.
  rewrite Hreply. now rewrite Hcheck.
Qed.

(** C4.  With [request_fail_exceptions] enabled, a mapping whose [success]
    equals false raises [RequestFailedError] with the message
    [Request failed: ] followed by its non-empty [msg], or by
    [(no error message)] when [msg] is absent or empty; [None] and a scalar
    raise with [Request failed: ] followed by their [repr]; the error keeps
    the request and the response it was given.  With the flag disabled every
    response is returned as it is. *)
Theorem failed_responses_raise (rq : request) (s : S) :
  (forall d v,
     d !! "success" = Some v -> py_eq_False v = true ->
     (forall m, d !! "msg" = Some (VText m) -> m <> "" ->
        Validator._check_response true rq (VDict d) s
        = (Raise (RequestFailedError ("Request failed: " ++ m) rq (VDict d)), s))
     /\ (d !! "msg" = None \/ d !! "msg" = Some (VText "") ->
         Validator._check_response true rq (VDict d) s
         = (Raise (RequestFailedError "Request failed: (no error message)" rq (VDict d)), s)))
  /\ Validator._check_response true rq VNone s
     = (Raise (RequestFailedError "Request failed: None" rq VNone), s)
  /\ (forall x,
        Validator._check_response true rq (VScalar x) s
        = (Raise (RequestFailedError ("Request failed: " ++ repr_scalar x) rq (VScalar x)), s))
  /\ (forall response,
        Validator._check_response false rq response s = (Ret response, s)).
Proof.
  repeat apply conj.
  - intros d v Hs Hv. unfold Validator._check_response; simpl. rewrite Hs, Hv. simpl.
    split.
    + intros m Hm Hne. unfold raise. rewrite Hm. unfold VText in *.
      destruct (String.eqb m "") eqn:He; [| reflexivity].
      apply String.eqb_eq in He. contradiction.
    + intros [Hm | Hm]; unfold raise; rewrite Hm; reflexivity.
  - reflexivity.
  - intros x. reflexivity.
  - intros response. reflexivity.
Qed.

End Validation.

Lemma successful_responses_pass_witness :
  ((exists d v, VDict {[ "success" := VTrue ]} = VDict d
                /\ d !! "success" = Some v /\ py_eq_True v = true)
   \/ (exists d, VDict {[ "success" := VTrue ]} = VDict d /\ d !! "success" = None)
   \/ (exists l, VDict {[ "success" := VTrue ]} = VList l))
  /\ Validator._check_response true (mk_request (MName "test") VNone)
       (VDict {[ "success" := VTrue ]}) tt
     = (Ret (VDict {[ "success" := VTrue ]}), tt)
  /\ fst (ZMQ.send_request Scenario.zmq_base (Scenario.env_with Scenario.server_down)
            "status" VNone Scenario.zmq_start)
     = Ret (VDict {[ "success" := VTrue ]}).
Proof.
  assert (H : (exists d v, VDict {[ "success" := VTrue ]} = VDict d
                           /\ d !! "success" = Some v /\ py_eq_True v = true)
              \/ (exists d, VDict {[ "success" := VTrue ]} = VDict d /\ d !! "success" = None)
              \/ (exists l, VDict {[ "success" := VTrue ]} = VList l)).
  { left. exists {[ "success" := VTrue ]}, VTrue. split; [reflexivity |].
    split; [vm_compute; reflexivity | reflexivity]. }
  destruct (successful_responses_pass true (mk_request (MName "test") VNone) _ tt H)
    as [Hcheck Hzmq].
  split; [exact H |]. split; [exact Hcheck |].
  apply (Hzmq Scenario.zmq_base (Scenario.env_with Scenario.server_down) "status" VNone
           Scenario.zmq_start);
    reflexivity.
Defined.

(** The cases of the validator's test. *)
Example check_response_cases :
  let rq := mk_request (MName "test") VNone in
  let check := fun b response => fst (Validator._check_response b rq response tt) in
  check true VNone = Raise (RequestFailedError "Request failed: None" rq VNone)
  /\ check true (VScalar (SInt 10))
     = Raise (RequestFailedError "Request failed: 10" rq (VScalar (SInt 10)))
  /\ check true (VList []) = Ret (VList [])
  /\ check true (VList [VScalar (SInt 1); VScalar (SInt 2); VScalar (SInt 3)])
     = Ret (VList [VScalar (SInt 1); VScalar (SInt 2); VScalar (SInt 3)])
  /\ check true (VDict ∅) = Ret (VDict ∅)
  /\ check true (VDict {[ "success" := VTrue ]}) = Ret (VDict {[ "success" := VTrue ]})
  /\ check true (VDict {[ "success" := VFalse ]})
     = Raise (RequestFailedError "Request failed: (no error message)" rq
                (VDict {[ "success" := VFalse ]}))
  /\ check true Scenario.rejected_body
     = Raise (RequestFailedError "Request failed: not allowed" rq Scenario.rejected_body)
  /\ check false VNone = Ret VNone
  /\ check false Scenario.rejected_body = Ret Scenario.rejected_body.
Proof. vm_compute. repeat apply conj; reflexivity. Qed.

(** * Further properties of the clients *)

(** ** Requests as they leave the client *)

Section Wire.

Variable base : HTTP.comm_base.
Variable env : environment.

Lemma takes_refresh_needs_client_error (rp : HTTP.request_params) (auto : bool)
    (w : world HTTP.Client) :
  (forall msg, fst (HTTP._simple_request base env rp w) <> Raise (HTTPClientError msg)) ->
  takes_refresh base env rp auto w = false.
Proof.
  intros Hne. destruct (takes_refresh base env rp auto w) eqn:H; [| reflexivity].
  apply takes_refresh_iff in H. destruct H as (msg & H & _). now apply Hne in H.
Qed.

(** X1.  With [auto_refresh_session=False], [send_request] is one
    [_simple_request] and nothing more, whatever the credentials and whatever
    the server answers (the expired-token answer included): same outcome, the
    client object untouched, at most one transport call. *)
Theorem send_request_without_auto_refresh (rp : HTTP.request_params)
    (w : world HTTP.Client) :
  HTTP.send_request base env rp false w = HTTP._simple_request base env rp w
  /\ self (snd (HTTP.send_request base env rp false w)) = self w
  /\ (requests (new_events w (snd (HTTP.send_request base env rp false w))) <= 1)%nat.
Proof.
  rewrite send_request_no_auto. split; [reflexivity |].
  split; [apply simple_request_self |].
  destruct (simple_request_log base env rp w) as (l & -> & Hcase).
  rewrite new_events_app. destruct Hcase as [-> | [c ->]]; cbv; lia.
Qed.

(** X2.  How [_simple_request] assembles its call once [_prepare_request] has
    returned a verb, an endpoint and a body: exactly one transport call is
    made, to that verb and endpoint, with that body as [json]; headers passed
    by the caller replace the ones of the stored credentials, which are used
    only when the caller's are absent or empty, and are left out when they
    are empty too; empty or absent query parameters and data are left out;
    without a timeout argument no timeout is passed. *)
Theorem simple_request_call_shape (rp : HTTP.request_params) (w : world HTTP.Client)
    (request_method endpoint : string) (json : value) :
  HTTP._prepare_request base (HTTP.rp_method rp) (HTTP.rp_params rp) w
  = (Ret (request_method, endpoint, json), w) ->
  exists kw,
    new_events w (snd (HTTP._simple_request base env rp w))
    = [Ev_request (mk_call request_method endpoint kw)]
    /\ kw_json kw = json
    /\ (truthy (HTTP.rp_headers rp) = true -> kw_headers kw = Some (HTTP.rp_headers rp))
    /\ (truthy (HTTP.rp_headers rp) = false ->
        kw_headers kw
        = if truthy (HTTP._prepare_headers base (HTTP._auth (self w)))
          then Some (HTTP._prepare_headers base (HTTP._auth (self w)))
          else None)
    /\ (truthy (HTTP.rp_url_params rp) = false -> kw_params kw = None)
    /\ (truthy (HTTP.rp_url_params rp) = true -> kw_params kw = Some (HTTP.rp_url_params rp))
    /\ (truthy (HTTP.rp_data rp) = false -> kw_data kw = None)
    /\ (truthy (HTTP.rp_data rp) = true -> kw_data kw = Some (HTTP.rp_data rp))
    /\ (HTTP.rp_timeout rp = None -> kw_timeout kw = None).
Proof.
  intros Hprep.
  assert (Hres : resolve base (HTTP.rp_method rp) = Some (request_method, endpoint)
                 /\ json = HTTP.rp_params rp).
  { revert Hprep. unfold HTTP._prepare_request, resolve.
    destruct (HTTP.rp_method rp) as [name | v e].
    - destruct (HTTP._rest_api_method_map base !! name) as [[v e] |].
      + intros [= <- <- <-]. auto.
      + discriminate.
    - intros [= <- <- <-]. auto. }
  destruct Hres as [Hres ->].
  rewrite simple_request_eq. unfold planned_call. rewrite Hres. simpl.
  eexists. split; [apply new_events_app |]. simpl.
  repeat apply conj; try reflexivity.
  - intros H. now rewrite !H.
  - intros H. now rewrite H.
  - intros H. now rewrite H.
  - intros H. now rewrite H.
  - intros H. now rewrite H.
  - intros H. now rewrite H.
  - intros H. now rewrite H.
Qed.

(** X9.  When the transport cannot reach the server, [send_request] raises
    [HTTPRequestError] with [HTTP request error: <cause>] after that single
    call: a connection failure is never retried and never starts a refresh,
    under any credentials and either setting of [auto_refresh_session]. *)
Theorem connection_failure_is_final (rp : HTTP.request_params) (auto : bool)
    (w : world HTTP.Client) (c : http_call) (cause : string) :
  planned_call base rp (HTTP._auth (self w)) = Some c ->
  server env (log w) c = Conn_failure cause ->
  HTTP.send_request base env rp auto w
  = (Raise (HTTPRequestError ("HTTP request error: " ++ cause)),
     mk_world (self w) (log w ++ [Ev_request c])).
Proof.
  intros Hplan Hsrv.
  assert (Hfirst : HTTP._simple_request base env rp w
                   = (Raise (HTTPRequestError ("HTTP request error: " ++ cause)),
                      mk_world (self w) (log w ++ [Ev_request c]))).
  { rewrite simple_request_eq, Hplan, Hsrv. reflexivity. }
  unfold HTTP.send_request. rewrite send_request_body_plain; [exact Hfirst |].
  apply takes_refresh_needs_client_error. intros msg. now rewrite Hfirst.
Qed.

(** X10.  When the server answers 2xx with a payload that reports a failure,
    [send_request] makes that one call and then either raises
    [RequestFailedError], which keeps the method and parameters of the
    request and the whole payload, or, with [request_fail_exceptions]
    disabled, returns the payload as it is.  It is never retried. *)
Theorem rejected_request_is_final (rp : HTTP.request_params) (auto : bool)
    (w : world HTTP.Client) (c : http_call) (r : client_response) :
  planned_call base rp (HTTP._auth (self w)) = Some c ->
  server env (log w) c = Http_response r ->
  Z.leb 200 (status_code r) && Z.ltb (status_code r) 300 = true ->
  Validator.failed (body r) = true ->
  HTTP.send_request base env rp auto w
  = (if HTTP._request_fail_exceptions (self w)
     then Raise (RequestFailedError
                   ("Request failed: " ++ Validator.failure_text (body r))
                   (mk_request (HTTP.rp_method rp) (HTTP.rp_params rp)) (body r))
     else Ret (body r),
     mk_world (self w) (log w ++ [Ev_request c])).
Proof.
  intros Hplan Hsrv H2xx Hfailed.
  assert (Hfirst : HTTP._simple_request base env rp w
                   = (if HTTP._request_fail_exceptions (self w)
                      then Raise (RequestFailedError
                                    ("Request failed: " ++ Validator.failure_text (body r))
                                    (mk_request (HTTP.rp_method rp) (HTTP.rp_params rp))
                                    (body r))
                      else Ret (body r),
                      mk_world (self w) (log w ++ [Ev_request c]))).
  { rewrite simple_request_eq, Hplan, Hsrv. unfold answer. rewrite H2xx, Hfailed.
    now destruct (HTTP._request_fail_exceptions (self w)). }
  unfold HTTP.send_request. rewrite send_request_body_plain; [exact Hfirst |].
  apply takes_refresh_needs_client_error. intros msg. rewrite Hfirst.
  now destruct (HTTP._request_fail_exceptions (self w)).
Qed.

End Wire.

Lemma simple_request_call_shape_witness :
  let base := Scenario.base in
  let env := Scenario.env_with Scenario.server_expiring in
  let rp := HTTP.mk_request_params (MName "whoami") (VDict {[ "verbose" := VTrue ]})
              (VDict ∅) (Scenario.apikey_header "other") VNone None in
  let w := Scenario.start Scenario.token_pair in
  let request_method := "GET" in
  let endpoint := "/api/auth/whoami" in
  let json := VDict {[ "verbose" := VTrue ]} in
  HTTP._prepare_request base (HTTP.rp_method rp) (HTTP.rp_params rp) w
  = (Ret (request_method, endpoint, json), w)
  /\ exists kw,
       new_events w (snd (HTTP._simple_request base env rp w))
       = [Ev_request (mk_call request_method endpoint kw)]
       /\ kw_json kw = json
       /\ (truthy (HTTP.rp_headers rp) = true -> kw_headers kw = Some (HTTP.rp_headers rp))
       /\ (truthy (HTTP.rp_headers rp) = false ->
           kw_headers kw
           = if truthy (HTTP._prepare_headers base (HTTP._auth (self w)))
             then Some (HTTP._prepare_headers base (HTTP._auth (self w)))
             else None)
       /\ (truthy (HTTP.rp_url_params rp) = false -> kw_params kw = None)
       /\ (truthy (HTTP.rp_url_params rp) = true ->
           kw_params kw = Some (HTTP.rp_url_params rp))
       /\ (truthy (HTTP.rp_data rp) = false -> kw_data kw = None)
       /\ (truthy (HTTP.rp_data rp) = true -> kw_data kw = Some (HTTP.rp_data rp))
       /\ (HTTP.rp_timeout rp = None -> kw_timeout kw = None).
Proof.
  intros base env rp w request_method endpoint json.
  assert (H : HTTP._prepare_request base (HTTP.rp_method rp) (HTTP.rp_params rp) w
              = (Ret (request_method, endpoint, json), w))
    by (vm_compute; reflexivity).
  split; [exact H |].
  exact (simple_request_call_shape base env rp w request_method endpoint json H).
Defined.

(** The call of that run: the caller's API-key header, not the stored token,
    and no query parameters although an empty mapping was passed. *)
Example explicit_headers_on_the_wire :
  map (fun e => match e with
                | Ev_request c =>
                    (call_endpoint c, kw_headers (call_kwargs c), kw_params (call_kwargs c))
                | _ => ("", None, None)
                end)
      (log (snd (HTTP._simple_request Scenario.base
                   (Scenario.env_with Scenario.server_expiring)
                   (HTTP.mk_request_params (MName "whoami") (VDict {[ "verbose" := VTrue ]})
                      (VDict ∅) (Scenario.apikey_header "other") VNone None)
                   (Scenario.start Scenario.token_pair))))
  = [("/api/auth/whoami", Some (Scenario.apikey_header "other"), None)].
Proof. vm_compute. reflexivity. Qed.

Lemma connection_failure_is_final_witness :
  let base := Scenario.base in
  let env := Scenario.env_with Scenario.server_down in
  let rp := HTTP.mk_request_params (MName "queue_item_add")
              (VDict {[ "item" := VText "plan" ]}) VNone VNone VNone None in
  let w := Scenario.start Scenario.token_pair in
  let c := mk_call "POST" "/api/queue/item/add"
             (mk_kwargs (VDict {[ "item" := VText "plan" ]}) None
                (Some (Scenario.bearer "old")) None None) in
  planned_call base rp (HTTP._auth (self w)) = Some c
  /\ server env (log w) c = Conn_failure "[Errno 111] Connection refused"
  /\ HTTP.send_request base env rp true w
     = (Raise (HTTPRequestError "HTTP request error: [Errno 111] Connection refused"),
        mk_world (self w) (log w ++ [Ev_request c])).
Proof.
  intros base env rp w c.
  assert (H1 : planned_call base rp (HTTP._auth (self w)) = Some c)
    by (vm_compute; reflexivity).
  assert (H2 : server env (log w) c = Conn_failure "[Errno 111] Connection refused")
    by reflexivity.
  split; [exact H1 |]. split; [exact H2 |].
  exact (connection_failure_is_final base env rp true w c _ H1 H2).
Defined.

Lemma rejected_request_is_final_witness :
  let base := Scenario.base in
  let env := Scenario.env_with Scenario.server_rejecting in
  let rp := HTTP.only_method (MName "queue_item_add") in
  let w := Scenario.lenient_start Scenario.token_pair in
  let c := mk_call "POST" "/api/queue/item/add"
             (mk_kwargs VNone None (Some (Scenario.bearer "old")) None None) in
  let r := mk_client_response 200 "" Scenario.rejected_body in
  planned_call base rp (HTTP._auth (self w)) = Some c
  /\ server env (log w) c = Http_response r
  /\ Z.leb 200 (status_code r) && Z.ltb (status_code r) 300 = true
  /\ Validator.failed (body r) = true
  /\ HTTP.send_request base env rp true w
     = (if HTTP._request_fail_exceptions (self w)
        then Raise (RequestFailedError
                      ("Request failed: " ++ Validator.failure_text (body r))
                      (mk_request (HTTP.rp_method rp) (HTTP.rp_params rp)) (body r))
        else Ret (body r),
        mk_world (self w) (log w ++ [Ev_request c])).
Proof.
  intros base env rp w c r.
  assert (H1 : planned_call base rp (HTTP._auth (self w)) = Some c)
    by (vm_compute; reflexivity).
  assert (H2 : server env (log w) c = Http_response r) by reflexivity.
  assert (H3 : Z.leb 200 (status_code r) && Z.ltb (status_code r) 300 = true)
    by reflexivity.
  assert (H4 : Validator.failed (body r) = true) by (vm_compute; reflexivity).
  split; [exact H1 |]. split; [exact H2 |]. split; [exact H3 |]. split; [exact H4 |].
  exact (rejected_request_is_final base env rp true w c r H1 H2 H3 H4).
Defined.

(** ** Teardown when a collaborator fails *)

(** X3.  [close] has no handler of its own.  When the monitor's
    [disable_wait] raises, [close] raises the same error with the flag already
    set and the transport handle not released; when the handle's [close]
    raises, [close] raises that error after both effects.  This holds for the
    HTTP and for the ZMQ client. *)
Theorem close_stops_at_first_failure (env : environment) :
  (forall (w : world HTTP.Client) ex,
     let timeout := (HTTP._console_monitor_poll_period (self w) * 10)%Q in
     (monitor_disable_wait env (log w) timeout = Some ex ->
      HTTP.close env w
      = (Raise ex, mk_world (HTTP.with_is_closing true (self w))
                     (log w ++ [Ev_disable_wait timeout true])))
     /\ (monitor_disable_wait env (log w) timeout = None ->
         handle_close env (log w ++ [Ev_disable_wait timeout true]) = Some ex ->
         HTTP.close env w
         = (Raise ex, mk_world (HTTP.with_is_closing true (self w))
                        (log w ++ [Ev_disable_wait timeout true; Ev_client_close]))))
  /\ (forall (w : world ZMQ.Client) ex,
        let timeout := (ZMQ._console_monitor_poll_timeout (self w) * 10)%Q in
        (monitor_disable_wait env (log w) timeout = Some ex ->
         ZMQ.close env w
         = (Raise ex, mk_world (ZMQ.with_is_closing true (self w))
                        (log w ++ [Ev_disable_wait timeout true])))
        /\ (monitor_disable_wait env (log w) timeout = None ->
            handle_close env (log w ++ [Ev_disable_wait timeout true]) = Some ex ->
            ZMQ.close env w
            = (Raise ex, mk_world (ZMQ.with_is_closing true (self w))
                           (log w ++ [Ev_disable_wait timeout true; Ev_client_close])))).
Proof.
  split; intros w ex timeout; subst timeout; split.
  - intros Hmon.
    unfold HTTP.close, bind, modify, HTTP.reading, disable_wait; simpl.
    now rewrite Hmon.
  - intros Hmon Hhandle.
    unfold HTTP.close, bind, modify, HTTP.reading, disable_wait, client_close; simpl.
    rewrite Hmon; simpl. rewrite Hhandle. now rewrite <- app_assoc.
  - intros Hmon.
    unfold ZMQ.close, bind, modify, disable_wait; simpl.
    now rewrite Hmon.
  - intros Hmon Hhandle.
    unfold ZMQ.close, bind, modify, disable_wait, client_close; simpl.
    rewrite Hmon; simpl. rewrite Hhandle. now rewrite <- app_assoc.
Qed.

Lemma close_stops_at_first_failure_witness :
  let w := Scenario.start (Auth_API_KEY "secret") in
  HTTP.close Faults.env_monitor_fails w
  = (Raise (HTTPRequestError "monitor"),
     mk_world (HTTP.with_is_closing true (self w))
       [Ev_disable_wait ((1 # 2) * 10) true])
  /\ ZMQ.close Faults.env_handle_fails Scenario.zmq_start
     = (Raise (HTTPRequestError "handle"),
        mk_world (ZMQ.with_is_closing true (self Scenario.zmq_start))
          [Ev_disable_wait ((1 # 1) * 10) true; Ev_client_close]).
Proof.
  intros w. split.
  - exact (proj1 (proj1 (close_stops_at_first_failure Faults.env_monitor_fails) w
                    (HTTPRequestError "monitor")) eq_refl).
  - exact (proj2 (proj2 (close_stops_at_first_failure Faults.env_handle_fails)
                    Scenario.zmq_start (HTTPRequestError "handle")) eq_refl eq_refl).
Defined.

(** ** The ZMQ request *)

(** X4.  [send_request] of the ZMQ client sends exactly one message, with the
    method and the parameters as given, and leaves the client object as it
    was, whatever comes back and whatever the translator does.  A reply is
    validated and returned as it is, or raised as [RequestFailedError]
    keeping the request and the reply.  When the transport raises, the call
    ends with the error that [_process_comm_exception] raises; were that
    helper to return, the call would end in [UnboundLocalError], since
    [response] was never bound: no value is returned on that path. *)
Theorem zmq_send_request_single_message (base : ZMQ.comm_base) (env : environment)
    (name : string) (params : value) (w : world ZMQ.Client) :
  let out := ZMQ.send_request base env name params w in
  let rq := mk_request (MName name) params in
  snd out = mk_world (self w) (log w ++ [Ev_send_message name params])
  /\ match zmq_server env (log w) name params with
     | Zmq_reply response =>
         fst out
         = if ZMQ._request_fail_exceptions (self w) && Validator.failed response
           then Raise (RequestFailedError
                         ("Request failed: " ++ Validator.failure_text response) rq response)
           else Ret response
     | Zmq_failure ex =>
         fst out
         = match ZMQ._process_comm_exception base (self w) name params ex with
           | Raise ex' => Raise ex'
           | Ret _ => Raise (UnboundLocalError "response")
           end
     end.
Proof.
  unfold ZMQ.send_request, ZMQ.send_message, ZMQ._check_response,
    Validator._check_response, try_except, bind; simpl.
  destruct (zmq_server env (log w) name params) as [response | ex]; simpl.
  - destruct (ZMQ._request_fail_exceptions (self w) && Validator.failed response);
      simpl; auto.
  - destruct (ZMQ._process_comm_exception base (self w) name params ex) as [[] | ex'];
      simpl; auto.
Qed.

(** A server that does not answer in time, under a translator that turns the
    timeout into [RequestTimeoutError], and a rejected request under either
    setting of [request_fail_exceptions]. *)
Example zmq_timeout_and_rejection :
  (exists msg,
     fst (ZMQ.send_request Scenario.zmq_base Faults.env_zmq_silent "queue_item_add" VNone
            Scenario.zmq_start)
     = Raise (RequestTimeoutError msg (mk_request (MName "queue_item_add") VNone))
     /\ contains "timeout occurred" msg = true)
  /\ fst (ZMQ.send_request Scenario.zmq_base Faults.env_zmq_rejecting "queue_item_add"
            VNone Scenario.zmq_start)
     = Raise (RequestFailedError "Request failed: not allowed"
                (mk_request (MName "queue_item_add") VNone) Scenario.rejected_body)
  /\ fst (ZMQ.send_request Scenario.zmq_base Faults.env_zmq_rejecting "queue_item_add"
            VNone (mk_world (ZMQ.mk_Client false false (1 # 1)) []))
     = Ret Scenario.rejected_body.
Proof.
  split; [| vm_compute; split; reflexivity].
  eexists. split; [vm_compute; reflexivity | vm_compute; reflexivity].
Qed.

(** ** Login and refresh *)

Section Session.

Variable base : HTTP.comm_base.
Variable env : environment.

(** The request [session_refresh] sends for the token [t]. *)
Definition refresh_request (t : string) : HTTP.request_params :=
  HTTP.mk_request_params (MName "session_refresh")
    (VDict {[ "refresh_token" := VText t ]}) VNone VNone VNone None.

Lemma session_refresh_eq (refresh_token : option string) (w : world HTTP.Client)
    (t : string) :
  HTTP._prepare_refresh_session refresh_token w = (Ret t, w) ->
  HTTP.session_refresh base env refresh_token w
  = match HTTP._simple_request base env (refresh_request t) w with
    | (Ret response, w') => HTTP.process_login_response base response w'
    | (Raise ex, w') => (Raise ex, w')
    end.
Proof.
  intros Hprep.
  unfold HTTP.session_refresh, HTTP.session_refresh_body, bind. rewrite Hprep.
  rewrite (send_request_body_plain base env _ _ false w) by apply takes_refresh_no_auto.
  fold (refresh_request t).
  destruct (HTTP._simple_request base env (refresh_request t) w) as [[response | ex] w'];
    [| reflexivity].
  now destruct (HTTP.process_login_response base response w') as [[v | ex] w''].
Qed.

(** X5.  [session_refresh] sends the refresh token its helper yields as the
    JSON body [{"refresh_token": t}] of one request, without query
    parameters, data or timeout.  When that request raises, [session_refresh]
    raises the same error and the stored credentials are as before; only a
    response that came back is handed to [_process_login_response], whose
    result and credentials become those of the call. *)
Theorem session_refresh_request (refresh_token : option string)
    (w : world HTTP.Client) (t : string) :
  HTTP._prepare_refresh_session refresh_token w = (Ret t, w) ->
  let attempt := HTTP._simple_request base env (refresh_request t) w in
  let out := HTTP.session_refresh base env refresh_token w in
  (forall ex, fst attempt = Raise ex -> out = (Raise ex, snd attempt) /\ self (snd out) = self w)
  /\ (forall response,
        fst attempt = Ret response ->
        fst out = fst (HTTP._process_login_response base response (HTTP._auth (self w)))
        /\ HTTP._auth (self (snd out))
           = snd (HTTP._process_login_response base response (HTTP._auth (self w)))
        /\ log (snd out) = log (snd attempt))
  /\ (forall request_method endpoint,
        HTTP._rest_api_method_map base !! "session_refresh" = Some (request_method, endpoint) ->
        exists kw,
          new_events w (snd out) = [Ev_request (mk_call request_method endpoint kw)]
          /\ kw_json kw = VDict {[ "refresh_token" := VText t ]}
          /\ kw_params kw = None /\ kw_data kw = None /\ kw_timeout kw = None).
Proof.
  intros Hprep attempt out. subst attempt out.
  rewrite (session_refresh_eq refresh_token w t Hprep).
  pose proof (simple_request_self base env (refresh_request t) w) as Hself.
  repeat apply conj.
  - intros ex Hex.
    destruct (HTTP._simple_request base env (refresh_request t) w) as [[response | ex'] w'];
      simpl in *; [discriminate |].
    injection Hex as ->. auto.
  - intros response Hr.
    destruct (HTTP._simple_request base env (refresh_request t) w) as [[response' | ex'] w'];
      simpl in *; [| discriminate].
    injection Hr as ->. unfold HTTP.process_login_response. rewrite Hself.
    now destruct (HTTP._process_login_response base response _).
  - intros request_method endpoint Htable.
    rewrite simple_request_eq. unfold planned_call, resolve; simpl. rewrite Htable.
    eexists. split.
    + destruct (answer _ _ _) as [response | ex]; simpl.
      * unfold HTTP.process_login_response; simpl.
        destruct (HTTP._process_login_response base response _); simpl.
        apply new_events_app.
      * apply new_events_app.
    + simpl. auto.
Qed.

(** X6.  [login] does nothing when [_prepare_login] raises.  Otherwise it
    sends one request without auto-refresh, for the pair [("POST", endpoint)]
    and no parameters: when [_prepare_request] returns for it, exactly one
    transport call is made, to the verb and endpoint and with the body that
    helper returned, carrying the login data, the login timeout (adjusted), no
    query parameters, and the header of whatever credentials are stored at
    that moment.  When the request raises, [login] raises the same error and
    the stored credentials are as before; only a response that came back
    reaches [_process_login_response]. *)
Theorem login_request (username password provider : option string)
    (w : world HTTP.Client) :
  let out := HTTP.login base env username password provider w in
  match HTTP._prepare_login base (self w) username password provider with
  | Raise ex => out = (Raise ex, w)
  | Ret (endpoint, data) =>
      let rp := HTTP.mk_request_params (MPair "POST" endpoint) VNone VNone VNone data
                  (HTTP._timeout_login (self w)) in
      match HTTP._prepare_request base (MPair "POST" endpoint) VNone w with
      | (Raise ex, _) => out = (Raise ex, w)
      | (Ret (request_method, endpoint', json), _) =>
          let stored := HTTP._prepare_headers base (HTTP._auth (self w)) in
          let c := mk_call request_method endpoint'
                     {| kw_json := json;
                        kw_params := None;
                        kw_headers := if truthy stored then Some stored else None;
                        kw_data := if truthy data then Some data else None;
                        kw_timeout := option_map (HTTP._adjust_timeout base)
                                        (HTTP._timeout_login (self w)) |} in
          new_events w (snd out) = [Ev_request c]
          /\ (forall ex,
                fst (HTTP._simple_request base env rp w) = Raise ex ->
                out = (Raise ex, mk_world (self w) (log w ++ [Ev_request c])))
          /\ (forall response,
                fst (HTTP._simple_request base env rp w) = Ret response ->
                fst out
                = fst (HTTP._process_login_response base response (HTTP._auth (self w)))
                /\ HTTP._auth (self (snd out))
                   = snd (HTTP._process_login_response base response
                            (HTTP._auth (self w))))
      end
  end.
Proof.
  cbv zeta. unfold HTTP.login, bind, HTTP.reading.
  destruct (HTTP._prepare_login base (self w) username password provider)
    as [[endpoint data] | ex]; [| reflexivity].
  rewrite send_request_no_auto, simple_request_eq. unfold planned_call, resolve; simpl.
  destruct (answer _ _ _) as [response | ex]; simpl.
  - unfold HTTP.process_login_response; simpl.
    destruct (HTTP._process_login_response base response _) as [[v | ex] a] eqn:Hplr; simpl.
    + repeat apply conj; [apply new_events_app | discriminate |].
      intros response' [= <-]. now rewrite Hplr.
    + repeat apply conj; [apply new_events_app | discriminate |].
      intros response' [= <-]. now rewrite Hplr.
  - repeat apply conj; [apply new_events_app | | discriminate].
    now intros ex' [= <-].
Qed.

End Session.

Lemma session_refresh_request_witness :
  let base := Scenario.base in
  let env := Scenario.env_with Scenario.server_expired in
  let refresh_token : option string := None in
  let w := Scenario.start Scenario.token_pair in
  let t := "refresh" in
  HTTP._prepare_refresh_session refresh_token w = (Ret t, w)
  /\ let attempt := HTTP._simple_request base env (refresh_request t) w in
     let out := HTTP.session_refresh base env refresh_token w in
     (forall ex, fst attempt = Raise ex ->
                 out = (Raise ex, snd attempt) /\ self (snd out) = self w)
     /\ (forall response,
           fst attempt = Ret response ->
           fst out = fst (HTTP._process_login_response base response (HTTP._auth (self w)))
           /\ HTTP._auth (self (snd out))
              = snd (HTTP._process_login_response base response (HTTP._auth (self w)))
           /\ log (snd out) = log (snd attempt))
     /\ (forall request_method endpoint,
           HTTP._rest_api_method_map base !! "session_refresh"
           = Some (request_method, endpoint) ->
           exists kw,
             new_events w (snd out) = [Ev_request (mk_call request_method endpoint kw)]
             /\ kw_json kw = VDict {[ "refresh_token" := VText t ]}
             /\ kw_params kw = None /\ kw_data kw = None /\ kw_timeout kw = None).
Proof.
  intros base env refresh_token w t.
  assert (H : HTTP._prepare_refresh_session refresh_token w = (Ret t, w)) by reflexivity.
  split; [exact H |].
  exact (session_refresh_request base env refresh_token w t H).
Defined.

(** A refresh and a login on concrete runs: the token pair the server issues
    is stored; a refused refresh leaves the old pair; the login request
    carries the header of the stale stored token and the login data. *)
Example refresh_and_login_runs :
  HTTP._auth (self (snd (HTTP.session_refresh Scenario.base
                           (Scenario.env_with Scenario.server_expiring) None
                           (Scenario.start Scenario.token_pair))))
  = Auth_TOKEN (Some "new") (Some "next")
  /\ HTTP.session_refresh Scenario.base (Scenario.env_with Scenario.server_expired) None
       (Scenario.start Scenario.token_pair)
     = (Raise (HTTPClientError "401: Access token has expired"),
        mk_world (Scenario.client Scenario.token_pair)
          [Ev_request (mk_call "POST" "/api/auth/session/refresh"
                         (mk_kwargs (VDict {[ "refresh_token" := VText "refresh" ]}) None
                            (Some (Scenario.bearer "old")) None None))])
  /\ map (fun e => match e with
                    | Ev_request c =>
                        (call_verb c, call_endpoint c, kw_headers (call_kwargs c),
                         kw_data (call_kwargs c))
                    | _ => ("", "", None, None)
                    end)
         (log (snd (HTTP.login Scenario.base (Scenario.env_with Scenario.server_down)
                      (Some "user") (Some "pw") None (Scenario.start Scenario.token_pair))))
     = [("POST", "/api/auth/provider/toy/token", Some (Scenario.bearer "old"),
         Some (VDict {[ "username" := VText "user" ]}))].
Proof. vm_compute. repeat apply conj; reflexivity. Qed.

(** ** Explicit credentials and the stored ones *)

Section Credentials.

Variable base : HTTP.comm_base.
Variable env : environment.

#[local] Abbreviation W := (world HTTP.Client).

(** A call whose only possible transport call carries the headers [h] and
    which leaves the client object as it was. *)
Definition sent_as (h : value) (op : M W value) (w : W) : Prop :=
  self (snd (op w)) = self w
  /\ forall c, In (Ev_request c) (new_events w (snd (op w))) ->
               kw_headers (call_kwargs c) = Some h.

Lemma sent_as_override (rp : HTTP.request_params) (w : W) :
  truthy (HTTP.rp_headers rp) = true ->
  sent_as (HTTP.rp_headers rp) (HTTP.send_request base env rp false) w.
Proof.
  intros Hh. unfold sent_as. rewrite send_request_no_auto, simple_request_eq.
  unfold planned_call.
  destruct (resolve base (HTTP.rp_method rp)) as [[request_method endpoint] |]; simpl.
  - split; [reflexivity |]. rewrite new_events_app. intros c [[= <-] | []]. simpl.
    now rewrite !Hh.
  - split; [reflexivity |]. unfold new_events. rewrite drop_all. intros c [].
Qed.

Lemma sent_as_then (h : value) (rp1 rp2 : HTTP.request_params) (w : W) :
  truthy h = true ->
  HTTP.rp_headers rp1 = h ->
  sent_as h
    (let* response :=
       if truthy h then HTTP.send_request base env rp1 false
       else HTTP.send_request base env rp2 true in
     ret response) w.
Proof.
  intros Hh Hrp. rewrite Hh.
  pose proof (sent_as_override rp1 w) as Hs. rewrite Hrp in Hs. specialize (Hs Hh).
  unfold sent_as, bind in *.
  destruct (HTTP.send_request base env rp1 false w) as [[response | ex] w']; exact Hs.
Qed.

Lemma sent_as_reading {A} (h : value) (f : HTTP.Client -> outcome A)
    (k : A -> M W value) (w : W) (a : A) :
  f (self w) = Ret a -> sent_as h (k a) w -> sent_as h (bind (HTTP.reading f) k) w.
Proof. unfold sent_as, bind, HTTP.reading. now intros ->. Qed.

(** X7.  When the helper of [session_revoke], [apikey_info], [apikey_delete],
    [whoami] or [api_scopes] yields headers for an explicit credential, the
    call goes out with exactly these headers, not with the stored
    credentials, and leaves the client object, stored credentials included,
    as it was. *)
Theorem explicit_credentials_leave_store (w : W) :
  (forall session_uid token api_key m headers,
     HTTP._prepare_session_revoke base (self w) session_uid token api_key
     = Ret (m, headers) ->
     truthy headers = true ->
     sent_as headers (HTTP.session_revoke base env session_uid token api_key) w)
  /\ (forall api_key headers,
        HTTP._prepare_apikey_info base (self w) api_key = Ret headers ->
        truthy headers = true ->
        sent_as headers (HTTP.apikey_info base env api_key) w)
  /\ (forall first_eight token api_key url_params headers,
        HTTP._prepare_apikey_delete base (self w) first_eight token api_key
        = Ret (url_params, headers) ->
        truthy headers = true ->
        sent_as headers (HTTP.apikey_delete base env first_eight token api_key) w)
  /\ (forall token api_key headers,
        HTTP._prepare_whoami base (self w) token api_key = Ret headers ->
        truthy headers = true ->
        sent_as headers (HTTP.whoami base env token api_key) w)
  /\ (forall token api_key headers,
        HTTP._prepare_whoami base (self w) token api_key = Ret headers ->
        truthy headers = true ->
        sent_as headers (HTTP.api_scopes base env token api_key) w).
Proof.
  repeat apply conj.
  - intros session_uid token api_key m headers Hprep Hh.
    unfold HTTP.session_revoke. eapply sent_as_reading; [exact Hprep |].
    now apply sent_as_then.
  - intros api_key headers Hprep Hh.
    unfold HTTP.apikey_info. eapply sent_as_reading; [exact Hprep |].
    now apply sent_as_then.
  - intros first_eight token api_key url_params headers Hprep Hh.
    unfold HTTP.apikey_delete. eapply sent_as_reading; [exact Hprep |].
    now apply sent_as_then.
  - intros token api_key headers Hprep Hh.
    unfold HTTP.whoami. eapply sent_as_reading; [exact Hprep |].
    now apply sent_as_then.
  - intros token api_key headers Hprep Hh.
    unfold HTTP.api_scopes. eapply sent_as_reading; [exact Hprep |].
    now apply sent_as_then.
Qed.

(** X8.  On the refresh-and-retry path the retried call is the one
    [_simple_request] builds under the credentials the client holds after the
    refresh step: the new token when the refresh stored one.  When the refresh
    request itself raised, the credentials are the old ones, the failure is
    printed, and the retried call is the first call over again, headers
    included. *)
Theorem retry_uses_current_credentials (rp : HTTP.request_params) (w : W) :
  takes_refresh base env rp true w = true ->
  let w1 := snd (HTTP._simple_request base env rp w) in
  let w2 := snd (refresh_step base env w1) in
  exists c1 c2,
    planned_call base rp (HTTP._auth (self w)) = Some c1
    /\ planned_call base rp (HTTP._auth (self w2)) = Some c2
    /\ snd (HTTP.send_request base env rp true w)
       = mk_world (self w2) (log w2 ++ [Ev_request c2])
    /\ (forall t ex,
          HTTP.auth_key_1 (self w) = Some t ->
          fst (HTTP._simple_request base env (refresh_request t) w1) = Raise ex ->
          self w2 = self w
          /\ c2 = c1
          /\ exists l : list event,
               log w2 = (l ++ [Ev_print ("Failed to refresh session: " ++ str_exn ex)])%list).
Proof.
  intros Htakes w1 w2.
  pose proof Htakes as Hcond. apply takes_refresh_iff in Hcond.
  destruct Hcond as (msg & Hfirst & _).
  destruct (simple_request_client_error base env rp w msg Hfirst) as (c1 & Hplan & Hw1).
  destruct (planned_call_same base rp (HTTP._auth (self w)) (HTTP._auth (self w2)) c1 Hplan)
    as (c2 & Hplan2 & _).
  exists c1, c2. split; [exact Hplan |]. split; [exact Hplan2 |]. split.
  - unfold HTTP.send_request. rewrite (send_request_body_retry base env _ rp true w Htakes).
    fold (refresh_step base env). fold w1. fold w2.
    rewrite simple_request_eq, Hplan2. reflexivity.
  - intros t ex Ht Hex.
    assert (Hself1 : self w1 = self w) by apply simple_request_self.
    assert (Hprep : HTTP._prepare_refresh_session None w1 = (Ret t, w1)).
    { unfold HTTP._prepare_refresh_session. now rewrite Hself1, Ht. }
    assert (Hw2 : w2 = mk_world (self w)
                         (log (snd (HTTP._simple_request base env (refresh_request t) w1))
                          ++ [Ev_print ("Failed to refresh session: " ++ str_exn ex)])).
    { unfold w2, refresh_step, try_except, bind.
      rewrite (session_refresh_eq base env None w1 t Hprep).
      pose proof (simple_request_self base env (refresh_request t) w1) as Hself.
      destruct (HTTP._simple_request base env (refresh_request t) w1)
        as [[response | ex'] w']; simpl in *; [discriminate |].
      injection Hex as ->. unfold print, emit, modify; simpl. now rewrite Hself, Hself1. }
    assert (Hs : self w2 = self w) by now rewrite Hw2.
    split; [exact Hs |]. split.
    + rewrite Hs in Hplan2. congruence.
    + rewrite Hw2. simpl. eauto.
Qed.

End Credentials.

Lemma explicit_credentials_leave_store_witness :
  let base := Scenario.base in
  let env := Scenario.env_with Scenario.server_expired in
  let w := Scenario.start Scenario.token_pair in
  HTTP._prepare_whoami base (self w) (Some "other") None = Ret (Scenario.bearer "other")
  /\ truthy (Scenario.bearer "other") = true
  /\ sent_as (Scenario.bearer "other")
       (HTTP.whoami base env (Some "other") None) w
  /\ sent_as (Scenario.bearer "other")
       (HTTP.api_scopes base env (Some "other") None) w.
Proof.
  intros base env w.
  pose proof (explicit_credentials_leave_store base env w)
    as (_ & _ & _ & Hwhoami & Hscopes).
  assert (H1 : HTTP._prepare_whoami base (self w) (Some "other") None
               = Ret (Scenario.bearer "other")) by reflexivity.
  assert (H2 : truthy (Scenario.bearer "other") = true) by (vm_compute; reflexivity).
  split; [exact H1 |]. split; [exact H2 |].
  split; [exact (Hwhoami _ _ _ H1 H2) | exact (Hscopes _ _ _ H1 H2)].
Defined.

Lemma retry_uses_current_credentials_witness :
  let base := Scenario.base in
  let env := Scenario.env_with Scenario.server_expired in
  let rp := HTTP.only_method (MName "queue_item_add") in
  let w := Scenario.start Scenario.token_pair in
  takes_refresh base env rp true w = true
  /\ let w1 := snd (HTTP._simple_request base env rp w) in
     let w2 := snd (refresh_step base env w1) in
     exists c1 c2,
       planned_call base rp (HTTP._auth (self w)) = Some c1
       /\ planned_call base rp (HTTP._auth (self w2)) = Some c2
       /\ snd (HTTP.send_request base env rp true w)
          = mk_world (self w2) (log w2 ++ [Ev_request c2])
       /\ (forall t ex,
             HTTP.auth_key_1 (self w) = Some t ->
             fst (HTTP._simple_request base env (refresh_request t) w1) = Raise ex ->
             self w2 = self w
             /\ c2 = c1
             /\ exists l : list event,
                  log w2
                  = (l ++ [Ev_print ("Failed to refresh session: " ++ str_exn ex)])%list).
Proof.
  intros base env rp w.
  assert (H : takes_refresh base env rp true w = true) by (vm_compute; reflexivity).
  split; [exact H |].
  exact (retry_uses_current_credentials base env rp w H).
Defined.

(** The two kinds of retry on concrete runs: after a refresh that stored a new
    pair the retried call carries the new token; after a refused refresh it
    carries the old one again and the failure has been printed. *)
Example retried_call_headers :
  (let out := HTTP.send_request Scenario.base (Scenario.env_with Scenario.server_expiring)
                (HTTP.only_method (MName "queue_item_add")) true
                (Scenario.start Scenario.token_pair) in
   map (fun e => match e with
                 | Ev_request c => kw_headers (call_kwargs c)
                 | _ => None
                 end) (log (snd out))
   = [Some (Scenario.bearer "old"); Some (Scenario.bearer "old");
      Some (Scenario.bearer "new")])
  /\ (let out := HTTP.send_request Scenario.base (Scenario.env_with Scenario.server_expired)
                   (HTTP.only_method (MName "queue_item_add")) true
                   (Scenario.start Scenario.token_pair) in
      map (fun e => match e with
                    | Ev_request c => kw_headers (call_kwargs c)
                    | Ev_print text => Some (VText text)
                    | _ => None
                    end) (log (snd out))
      = [Some (Scenario.bearer "old"); Some (Scenario.bearer "old");
         Some (VText "Failed to refresh session: 401: Access token has expired");
         Some (Scenario.bearer "old")]).
Proof. vm_compute. split; reflexivity. Qed.
